(** * The data dashboard page (frontend/src/pages/data/index.vue)

    A shallow embedding of the script of the page: the reactive state, the
    fetch handlers, the line-chart builder [updateIndustryChart], the local
    analysis [analyzeIndustry] and the treemap pipeline
    [getIndustryStockHierarchy] / [convertApiDataToChartFormat] /
    [convertData] / [updateHotmapChart].

    Conventions of the embedding.
    - JavaScript Numbers are an abstract type [num] with the built-in
      operations the page uses (class [JSNumber]); every structural theorem
      holds for any implementation of them, IEEE doubles included.  The
      instance [QNum] (exact rationals) is used for worked examples and for
      the facts that need an order on numbers.
    - Counters that only ever hold small non-negative integers ([count],
      [positiveDays], array lengths and indices) are [nat].
    - [response.json()] yields values of the shapes shown in the page's own
      API tab; a field that may be missing is an [option] ([None] is
      [undefined]).
    - A handler is run to completion against the outcome of the requests it
      issues; the requests it issues are returned as a log. *)

From Stdlib Require Import ZArith QArith Qabs String List Sorted Lia Lqa DecimalString.
From stdpp Require Import gmap strings list.

Set Implicit Arguments.
Local Open Scope string_scope.

(** ** JavaScript numbers *)

Class JSNumber (num : Type) := {
  nlit : Q -> num;              (* a numeric literal, or an exact small integer *)
  nadd : num -> num -> num;     (* a + b *)
  nsub : num -> num -> num;     (* a - b *)
  nmul : num -> num -> num;     (* a * b *)
  ndiv : num -> num -> num;     (* a / b *)
  nltb : num -> num -> bool;    (* a < b *)
  ntruthy : num -> bool;        (* ToBoolean: false for 0 and NaN *)
  nabs : num -> num;            (* Math.abs *)
  nsqrt : num -> num;           (* Math.sqrt *)
  npow : num -> num -> num;     (* Math.pow *)
  toFixed2 : num -> string;     (* x.toFixed(2) *)
  nstr : num -> string          (* ToString, as in a template literal *)
}.

Definition of_nat {num} `{JSNumber num} (n : nat) : num :=
  nlit (inject_Z (Z.of_nat n)).

(** [a > b] is [b < a]. *)
Definition ngtb {num} `{JSNumber num} (a b : num) : bool := nltb b a.

(** *** Exact rationals as a number implementation *)

Definition digits_of_Z (z : Z) : string :=
  NilZero.string_of_uint (N.to_uint (Z.to_N z)).

Definition two_digits (z : Z) : string :=
  if (z <? 10)%Z then "0" ++ digits_of_Z z else digits_of_Z z.

(** [toFixed(2)]: the sign is taken off, the magnitude is rounded to the
    nearest hundredth (the larger one on a tie) and printed with two
    fractional digits; a negative number that rounds to zero keeps its sign. *)
Definition Q_toFixed2 (x : Q) : string :=
  let a := Qabs x in
  let d := Zpos (Qden a) in
  let n := ((2 * 100 * Qnum a + d) / (2 * d))%Z in
  (if (Qnum x <? 0)%Z then "-" else "") ++
  digits_of_Z (n / 100) ++ "." ++ two_digits (n mod 100).

Definition Q_ltb (a b : Q) : bool :=
  match Qcompare a b with Lt => true | _ => false end.

(** Square root to seventeen decimal places, rounded down. *)
Definition Q_sqrt (x : Q) : Q :=
  let s := (10 ^ 34)%Z in
  Qmake (Z.sqrt (Qnum x * s / Zpos (Qden x))) (Z.to_pos (10 ^ 17)).

Definition Q_pow (x e : Q) : Q :=
  Qpower x (Qnum e / Zpos (Qden e)).

(** Integers print as their digits, other numbers with the fractional
    digits of [toFixed(2)]. *)
Definition Q_str (x : Q) : string :=
  if (Zpos (Qden (Qred x)) =? 1)%Z
  then (if (Qnum x <? 0)%Z then "-" else "") ++ digits_of_Z (Z.abs (Qnum (Qred x)))
  else Q_toFixed2 x.

#[export] Instance QNum : JSNumber Q := {
  nlit := fun q => q;
  nadd := Qplus;
  nsub := Qminus;
  nmul := Qmult;
  ndiv := Qdiv;
  nltb := Q_ltb;
  ntruthy := fun q => negb (Qnum q =? 0)%Z;
  nabs := Qabs;
  nsqrt := Q_sqrt;
  npow := Q_pow;
  toFixed2 := Q_toFixed2;
  nstr := Q_str
}.

(** ** JavaScript array and string helpers *)

(** [arr.slice(start)]: a negative [start] counts from the end. *)
Definition js_slice_from {A} (start : Z) (l : list A) : list A :=
  let len := Z.of_nat (length l) in
  let k := if (start <? 0)%Z then Z.max (len + start) 0 else Z.min start len in
  drop (Z.to_nat k) l.

(** [arr.sort(cmp)] for a consistent comparator: the sort is stable, so the
    result is the stable insertion sort by "[cmp(a, b) < 0]", here [lt a b]. *)
Fixpoint js_sort_insert {A} (lt : A -> A -> bool) (x : A) (l : list A) : list A :=
  match l with
  | [] => [x]
  | y :: ys => if lt y x then y :: js_sort_insert lt x ys else x :: y :: ys
  end.

Fixpoint js_sort {A} (lt : A -> A -> bool) (l : list A) : list A :=
  match l with
  | [] => []
  | x :: xs => js_sort_insert lt x (js_sort lt xs)
  end.

(** [a] may stand before [b]: the comparator does not put [b] first. *)
Definition not_after {A} (lt : A -> A -> bool) (a b : A) : Prop := lt b a = false.

(** [set.add(x)] on a [Set] kept in insertion order. *)
Definition set_add (acc : list string) (x : string) : list string :=
  if bool_decide (x ∈ acc) then acc else acc ++ [x].

(** [a || b] on strings: the empty string is falsy. *)
Definition str_or (a : option string) (b : string) : string :=
  match a with
  | Some s => if bool_decide (s = "") then b else s
  | None => b
  end.

(** Decimal rendering of an integer, as a template literal prints it. *)
Definition Z_to_string (z : Z) : string :=
  if (z <? 0)%Z then "-" ++ digits_of_Z (Z.abs z) else digits_of_Z z.

(** ** Outcome of a request *)

Inductive response (A : Type) : Type :=
| FetchRejected (message : string)   (* fetch() rejects: the request did not complete *)
| HttpError (status : Z)             (* a response whose [ok] is false *)
| JsonRejected (message : string)    (* response.json() rejects *)
| JsonBody (body : A).               (* an ok response and its parsed body *)

Arguments FetchRejected {A} message.
Arguments HttpError {A} status.
Arguments JsonRejected {A} message.

(** The message of the error that reaches the [catch] clause, if any:
    [throw new Error(`HTTP error! status: ${response.status}`)] for a
    response that is not ok. *)
Definition thrown_message {A} (r : response A) : option string :=
  match r with
  | FetchRejected m => Some m
  | HttpError st => Some ("HTTP error! status: " ++ Z_to_string st)
  | JsonRejected m => Some m
  | JsonBody _ => None
  end.

(** The requests of the page (all [GET], below [API_BASE_URL]). *)
Inductive request : Type :=
| ReqIndustryAnalysis (page page_size : Z)
| ReqIndustryTrend (industry : string)
| ReqStockHierarchy
| ReqAnalyzeLLM (industry : string) (days : Z)
| ReqAnalyzeAllLLM (days : Z).

(** ** Data model *)

Section Model.

Variable num : Type.
Context {JN : JSNumber num}.

(** A primitive that is a number or a string. *)
Inductive jsprim : Type :=
| PNum (x : num)
| PStr (s : string).

Definition jsprim_to_string (p : jsprim) : string :=
  match p with
  | PNum x => nstr x
  | PStr s => s
  end.

Record IndustrySummary : Type := {
  industry : string;
  stock_count : num;
  avg_change : num;
  avg_volatility : num
}.

Record TrendPoint : Type := {
  date : string;
  close : num;
  change_percent : option num
}.

(** [stock_trends] is the object's entries in property order, so that
    [Object.values] is [map snd] and [Object.keys] is [map fst]. *)
Record IndustryTrend : Type := {
  trend_industry : string;
  trend_stock_count : option num;
  stock_trends : option (list (string * list TrendPoint))
}.

(** The body of the industry-analysis endpoint: [data] is [Some] exactly
    when the field is an array. *)
Record AnalysisPage : Type := {
  page_data : option (list IndustrySummary);
  page_total : option num
}.

Record LLMBody : Type := {
  llm_industry : option string;
  llm_period : option string;
  llm_stock_count : option num;
  llm_avg_change : option num;
  llm_volatility : option num;
  llm_analysis : option string
}.

Record DayPerformance : Type := {
  perf_date : string;
  perf_change : num
}.

Record LocalAnalysis : Type := {
  res_period : string;
  res_stockCount : nat;
  res_avgChange : num;
  res_volatility : num;
  res_positiveDays : nat;
  res_negativeDays : nat;
  res_positiveRate : jsprim;
  res_dailyPerformance : list DayPerformance;
  res_summary : string
}.

(** The values [industryAnalysisResult] is assigned. *)
Inductive AnalysisResult : Type :=
| ResultError (industry_name : string) (error_text : string)
| ResultLocal (industry_name : string) (r : LocalAnalysis)
| ResultLLM (b : LLMBody)
| ResultAllLLM (industry_name : string) (b : LLMBody).

(** *** Line chart *)

Record LineSeries : Type := {
  series_name : string;
  series_data : list string;
  series_color : string
}.

(** The parts of [option] that depend on the data: [xAxis.data] and
    [series] ([legend.data] is the names of [series]). *)
Record LineChartOption : Type := {
  chart_dates : list string;
  chart_series : list LineSeries
}.

(** *** Treemap *)

(** A Number, or an array of Numbers. *)
Inductive jsv : Type :=
| VNum (x : num)
| VArr (l : list num).

Definition jsv_truthy (v : jsv) : bool :=
  match v with
  | VNum x => ntruthy x
  | VArr _ => true
  end.

(** The [value] array of a treemap node, by index; index 3 is absent until
    [convertData] assigns it. *)
Record HotValue : Type := {
  value_0 : jsv;
  value_1 : num;
  value_2 : num;
  value_3 : option num
}.

Record HotmapStock : Type := {
  stock_node_name : string;
  stock_node_value : HotValue
}.

Record HotmapNode : Type := {
  node_name : string;
  node_value : HotValue;
  node_stock_count : num;
  node_children : list HotmapStock
}.

(** An ECharts instance: the option last given to [setOption], if any. *)
Record EChart (O : Type) : Type := {
  chart_option : option O
}.

(** ** Page state *)

Record State : Type := {
  industryAnalysis : list IndustrySummary;
  industryTrend : option IndustryTrend;
  allIndustryTrends : gmap string IndustryTrend;
  loading : bool;
  error : option string;
  daysToShow : Z;
  industryFilter : string;
  industryAnalysisResult : option AnalysisResult;
  analyzingIndustry : string;
  analysisLoading : bool;
  industryCurrentPage : Z;
  industryPageSize : Z;
  totalIndustries : num;
  industryChartRef : bool;
  industryChart : option (EChart LineChartOption);
  marketHotmapRef : bool;
  marketHotmapChart : option (EChart (list HotmapNode));
  hotmapLoading : bool
}.

Definition set_industryAnalysis (v : list IndustrySummary) (s : State) : State :=
  Build_State v (industryTrend s) (allIndustryTrends s) (loading s) (error s)
    (daysToShow s) (industryFilter s) (industryAnalysisResult s)
    (analyzingIndustry s) (analysisLoading s) (industryCurrentPage s)
    (industryPageSize s) (totalIndustries s) (industryChartRef s)
    (industryChart s) (marketHotmapRef s) (marketHotmapChart s) (hotmapLoading s).


Definition set_allIndustryTrends (v : gmap string IndustryTrend) (s : State) : State :=
  Build_State (industryAnalysis s) (industryTrend s) v (loading s) (error s)
    (daysToShow s) (industryFilter s) (industryAnalysisResult s)
    (analyzingIndustry s) (analysisLoading s) (industryCurrentPage s)
    (industryPageSize s) (totalIndustries s) (industryChartRef s)
    (industryChart s) (marketHotmapRef s) (marketHotmapChart s) (hotmapLoading s).

Definition set_loading (v : bool) (s : State) : State :=
  Build_State (industryAnalysis s) (industryTrend s) (allIndustryTrends s) v (error s)
    (daysToShow s) (industryFilter s) (industryAnalysisResult s)
    (analyzingIndustry s) (analysisLoading s) (industryCurrentPage s)
    (industryPageSize s) (totalIndustries s) (industryChartRef s)
    (industryChart s) (marketHotmapRef s) (marketHotmapChart s) (hotmapLoading s).

Definition set_error (v : option string) (s : State) : State :=
  Build_State (industryAnalysis s) (industryTrend s) (allIndustryTrends s) (loading s) v
    (daysToShow s) (industryFilter s) (industryAnalysisResult s)
    (analyzingIndustry s) (analysisLoading s) (industryCurrentPage s)
    (industryPageSize s) (totalIndustries s) (industryChartRef s)
    (industryChart s) (marketHotmapRef s) (marketHotmapChart s) (hotmapLoading s).

Definition set_daysToShow (v : Z) (s : State) : State :=
  Build_State (industryAnalysis s) (industryTrend s) (allIndustryTrends s) (loading s)
    (error s) v (industryFilter s) (industryAnalysisResult s)
    (analyzingIndustry s) (analysisLoading s) (industryCurrentPage s)
    (industryPageSize s) (totalIndustries s) (industryChartRef s)
    (industryChart s) (marketHotmapRef s) (marketHotmapChart s) (hotmapLoading s).

Definition set_industryFilter (v : string) (s : State) : State :=
  Build_State (industryAnalysis s) (industryTrend s) (allIndustryTrends s) (loading s)
    (error s) (daysToShow s) v (industryAnalysisResult s)
    (analyzingIndustry s) (analysisLoading s) (industryCurrentPage s)
    (industryPageSize s) (totalIndustries s) (industryChartRef s)
    (industryChart s) (marketHotmapRef s) (marketHotmapChart s) (hotmapLoading s).

Definition set_industryAnalysisResult (v : option AnalysisResult) (s : State) : State :=
  Build_State (industryAnalysis s) (industryTrend s) (allIndustryTrends s) (loading s)
    (error s) (daysToShow s) (industryFilter s) v
    (analyzingIndustry s) (analysisLoading s) (industryCurrentPage s)
    (industryPageSize s) (totalIndustries s) (industryChartRef s)
    (industryChart s) (marketHotmapRef s) (marketHotmapChart s) (hotmapLoading s).

Definition set_analyzingIndustry (v : string) (s : State) : State :=
  Build_State (industryAnalysis s) (industryTrend s) (allIndustryTrends s) (loading s)
    (error s) (daysToShow s) (industryFilter s) (industryAnalysisResult s)
    v (analysisLoading s) (industryCurrentPage s)
    (industryPageSize s) (totalIndustries s) (industryChartRef s)
    (industryChart s) (marketHotmapRef s) (marketHotmapChart s) (hotmapLoading s).

Definition set_analysisLoading (v : bool) (s : State) : State :=
  Build_State (industryAnalysis s) (industryTrend s) (allIndustryTrends s) (loading s)
    (error s) (daysToShow s) (industryFilter s) (industryAnalysisResult s)
    (analyzingIndustry s) v (industryCurrentPage s)
    (industryPageSize s) (totalIndustries s) (industryChartRef s)
    (industryChart s) (marketHotmapRef s) (marketHotmapChart s) (hotmapLoading s).

Definition set_industryCurrentPage (v : Z) (s : State) : State :=
  Build_State (industryAnalysis s) (industryTrend s) (allIndustryTrends s) (loading s)
    (error s) (daysToShow s) (industryFilter s) (industryAnalysisResult s)
    (analyzingIndustry s) (analysisLoading s) v
    (industryPageSize s) (totalIndustries s) (industryChartRef s)
    (industryChart s) (marketHotmapRef s) (marketHotmapChart s) (hotmapLoading s).

Definition set_industryPageSize (v : Z) (s : State) : State :=
  Build_State (industryAnalysis s) (industryTrend s) (allIndustryTrends s) (loading s)
    (error s) (daysToShow s) (industryFilter s) (industryAnalysisResult s)
    (analyzingIndustry s) (analysisLoading s) (industryCurrentPage s)
    v (totalIndustries s) (industryChartRef s)
    (industryChart s) (marketHotmapRef s) (marketHotmapChart s) (hotmapLoading s).

Definition set_totalIndustries (v : num) (s : State) : State :=
  Build_State (industryAnalysis s) (industryTrend s) (allIndustryTrends s) (loading s)
    (error s) (daysToShow s) (industryFilter s) (industryAnalysisResult s)
    (analyzingIndustry s) (analysisLoading s) (industryCurrentPage s)
    (industryPageSize s) v (industryChartRef s)
    (industryChart s) (marketHotmapRef s) (marketHotmapChart s) (hotmapLoading s).

Definition set_industryChart (v : option (EChart LineChartOption)) (s : State) : State :=
  Build_State (industryAnalysis s) (industryTrend s) (allIndustryTrends s) (loading s)
    (error s) (daysToShow s) (industryFilter s) (industryAnalysisResult s)
    (analyzingIndustry s) (analysisLoading s) (industryCurrentPage s)
    (industryPageSize s) (totalIndustries s) (industryChartRef s)
    v (marketHotmapRef s) (marketHotmapChart s) (hotmapLoading s).

Definition set_marketHotmapChart (v : option (EChart (list HotmapNode))) (s : State) : State :=
  Build_State (industryAnalysis s) (industryTrend s) (allIndustryTrends s) (loading s)
    (error s) (daysToShow s) (industryFilter s) (industryAnalysisResult s)
    (analyzingIndustry s) (analysisLoading s) (industryCurrentPage s)
    (industryPageSize s) (totalIndustries s) (industryChartRef s)
    (industryChart s) (marketHotmapRef s) v (hotmapLoading s).

Definition set_hotmapLoading (v : bool) (s : State) : State :=
  Build_State (industryAnalysis s) (industryTrend s) (allIndustryTrends s) (loading s)
    (error s) (daysToShow s) (industryFilter s) (industryAnalysisResult s)
    (analyzingIndustry s) (analysisLoading s) (industryCurrentPage s)
    (industryPageSize s) (totalIndustries s) (industryChartRef s)
    (industryChart s) (marketHotmapRef s) (marketHotmapChart s) v.

(** [echarts.init(el)]: a fresh instance without option. *)
Definition echarts_init (O : Type) : EChart O := {| chart_option := None |}.

(** [chart.setOption(option)]. *)
Definition setOption {O : Type} (o : O) (c : EChart O) : EChart O :=
  {| chart_option := Some o |}.

End Model.

Arguments ResultError {num} industry_name error_text.
Arguments PStr {num} s.

(** ** The line chart: [updateIndustryChart] *)

Section IndustryChart.

Variable num : Type.
Context {JN : JSNumber num}.

Definition colors : list string :=
  ["#67c23a"; "#f56c6c"; "#409eff"; "#e6a23c"; "#909399"].

Definition is_top_or_bottom (filter : string) : bool :=
  bool_decide (filter = "top3") || bool_decide (filter = "bottom3").

(** The comparator given to [sort]:
    [filter === 'top3' ? b.avg_change - a.avg_change : a.avg_change - b.avg_change]. *)
Definition filter_comparator (filter : string) (a b : IndustrySummary num) : num :=
  if bool_decide (filter = "top3")
  then nsub (avg_change b) (avg_change a)
  else nsub (avg_change a) (avg_change b).

Definition comes_before (filter : string) (a b : IndustrySummary num) : bool :=
  nltb (filter_comparator filter a b) (nlit 0).

(** [industriesToShow]: the whole page, or the first three of the page
    sorted by the comparator.  (The neighbouring [filteredIndustries] is
    computed by the source as well but never read.) *)
Definition industriesToShow (s : State num) : list (IndustrySummary num) :=
  if is_top_or_bottom (industryFilter s)
  then take 3 (js_sort (comes_before (industryFilter s)) (industryAnalysis s))
  else industryAnalysis s.

(** [stockData.forEach(item => { if (item.date) allDataDates.add(item.date) })] *)
Definition add_stock_dates (acc : list string) (stockData : list (TrendPoint num))
  : list string :=
  fold_left
    (fun acc item => if bool_decide (date item = "") then acc else set_add acc (date item))
    stockData acc.

Definition add_trend_dates (acc : list string) (trend : option (IndustryTrend num))
  : list string :=
  match trend with
  | Some t =>
      match stock_trends t with
      | Some st => fold_left add_stock_dates (map snd st) acc
      | None => acc
      end
  | None => acc
  end.

Definition allDataDates (s : State num) : list string :=
  fold_left
    (fun acc ind => add_trend_dates acc (allIndustryTrends s !! industry ind))
    (industriesToShow s) [].

(** [Array.from(allDataDates).sort()]: the default order of strings. *)
Definition sortedDates (s : State num) : list string :=
  js_sort String.ltb (allDataDates s).

(** [sortedDates.slice(-daysToShow.value)] *)
Definition recentDates (s : State num) : list string :=
  js_slice_from (- daysToShow s) (sortedDates s).

(** One step of the loop over [Object.values(trend.stock_trends)] for a
    date: [totalChange] and [count] after looking at one stock. *)
Definition add_stock_change (d : string) (acc : num * nat)
    (stockData : list (TrendPoint num)) : num * nat :=
  match List.find (fun item => bool_decide (date item = d)) stockData with
  | Some stockDateData =>
      match change_percent stockDateData with
      | Some cp => (nadd (fst acc) cp, S (snd acc))
      | None => acc
      end
  | None => acc
  end.

(** The value pushed on [industryData] for one date. *)
Definition dateAverage (st : list (string * list (TrendPoint num))) (d : string)
  : string :=
  let '(totalChange, count) :=
    fold_left (add_stock_change d) (map snd st) (nlit 0, 0%nat) in
  if (0 <? count)%nat
  then toFixed2 (ndiv totalChange (of_nat count))
  else "0".

(** The mock series of an industry without real data; [k] is the number of
    calls of [Math.random()] made before, [rand] the values it returns.
    [randomFactor] is [(Math.random() - 0.5) * 2] for the value [r] drawn. *)
Definition randomFactor (r : num) : num :=
  nmul (nsub r (nlit 0.5)) (nlit 2).

Definition mockSeriesData (rand : nat -> num) (k : nat)
    (ind : IndustrySummary num) (dates : list string) : list string :=
  let baseChange := nmul (avg_change ind) (nlit 100) in
  imap (fun i _ => toFixed2 (nadd baseChange (randomFactor (rand (k + i)%nat))))
       dates.

Definition color_of (index : nat) : string :=
  default "" (colors !! (index mod length colors)%nat).

(** The real trend data of an industry, when the series uses it:
    [hasRealData && trend && trend.stock_trends]. *)
Definition realTrendOf (s : State num) (ind : IndustrySummary num)
  : option (list (string * list (TrendPoint num))) :=
  if negb (size (allIndustryTrends s) =? 0)%nat
  then allIndustryTrends s !! industry ind ≫= stock_trends (num:=num)
  else None.

(** [industriesToShow.forEach((industry, index) => ...)], from position
    [index] on, after [k] calls of [Math.random()]. *)
Fixpoint buildSeries (s : State num) (rand : nat -> num) (dates : list string)
    (inds : list (IndustrySummary num)) (index k : nat) : list LineSeries :=
  match inds with
  | [] => []
  | ind :: rest =>
      match realTrendOf s ind with
      | Some st =>
          {| series_name := industry ind;
             series_data := map (dateAverage st) dates;
             series_color := color_of index |}
          :: buildSeries s rand dates rest (S index) k
      | None =>
          {| series_name := industry ind;
             series_data := mockSeriesData rand k ind dates;
             series_color := color_of index |}
          :: buildSeries s rand dates rest (S index) (k + length dates)
      end
  end.

Definition lineChartOption (rand : nat -> num) (s : State num) : LineChartOption :=
  {| chart_dates := recentDates s;
     chart_series := buildSeries s rand (recentDates s) (industriesToShow s) 0 0 |}.

Definition updateIndustryChart (rand : nat -> num) (s : State num) : State num :=
  if (length (industryAnalysis s) =? 0)%nat then s
  else
    let s1 :=
      match industryChart s with
      | None =>
          if industryChartRef s
          then set_industryChart (Some (echarts_init LineChartOption)) s
          else s
      | Some _ => s
      end in
    match industryChart s1 with
    | None => s1
    | Some chart =>
        set_industryChart (Some (setOption (lineChartOption rand s1) chart)) s1
    end.

(** The option the line chart currently shows, and the point it plots for
    the series at position [i] on the date at position [j]. *)
Definition shownLineChart (s : State num) : option LineChartOption :=
  industryChart s ≫= chart_option (O:=LineChartOption).

Definition plotted (o : LineChartOption) (i j : nat) : option string :=
  chart_series o !! i ≫= fun sr => series_data sr !! j.

(** [handleDaysChange], [handleIndustryFilterChange] *)
Definition handleDaysChange (rand : nat -> num) (value : Z) (s : State num) : State num :=
  updateIndustryChart rand (set_daysToShow value s).

Definition handleIndustryFilterChange (rand : nat -> num) (value : string)
    (s : State num) : State num :=
  updateIndustryChart rand (set_industryFilter value s).

(** [initIndustryChart] *)
Definition initIndustryChart (rand : nat -> num) (s : State num) : State num :=
  if industryChartRef s
  then updateIndustryChart rand
         (set_industryChart (Some (echarts_init LineChartOption)) s)
  else s.

End IndustryChart.

(** ** Fetch handlers of the industry tab *)

Section Handlers.

Variable num : Type.
Context {JN : JSNumber num}.

(** [a || b] on Numbers that may be missing. *)
Definition num_or (a : option num) (b : num) : num :=
  match a with
  | Some x => if ntruthy x then x else b
  | None => b
  end.

(** The requests [getAllIndustryTrends] issues: one per element of
    [industryAnalysis], in order. *)
Definition trendRequests (s : State num) : list request :=
  map (fun item => ReqIndustryTrend (industry item)) (industryAnalysis s).

(** What one of the parallel requests of [getAllIndustryTrends] settles to.
    A rejected [fetch] and a response that is not ok are caught inside the
    callback, which then returns [null] ([inl None]).  The body is returned
    as [return response.json()], without [await]: when [json()] rejects, the
    callback's own promise rejects with that error ([inr message]). *)
Definition trendPromise (r : response (IndustryTrend num))
  : option (IndustryTrend num) + string :=
  match r with
  | FetchRejected _ => inl None
  | HttpError _ => inl None
  | JsonRejected m => inr m
  | JsonBody t => inl (Some t)
  end.

(** [await Promise.all(trendPromises)]: all the values, or a rejection
    (the first in request order here; with several rejections the one that
    settles first wins, which only changes the message). *)
Fixpoint promise_all {A} (l : list (A + string)) : list A + string :=
  match l with
  | [] => inl []
  | inr m :: _ => inr m
  | inl a :: rest =>
      match promise_all rest with
      | inl vs => inl (a :: vs)
      | inr m => inr m
      end
  end.

(** [trends.forEach((trend, index) => ...)] from position [index] on:
    a trend with a [stock_trends] field is stored under the name of
    [industries] at its position, as [{ ...trend, industry: name }]. *)
Fixpoint collectTrends (industries : list string)
    (trends : list (option (IndustryTrend num)))
    (trendsData : gmap string (IndustryTrend num)) : gmap string (IndustryTrend num) :=
  match industries, trends with
  | name :: industries', trend :: trends' =>
      collectTrends industries' trends'
        match trend with
        | Some t =>
            match stock_trends t with
            | Some st =>
                <[ name := {| trend_industry := name;
                              trend_stock_count := trend_stock_count t;
                              stock_trends := Some st |} ]> trendsData
            | None => trendsData
            end
        | None => trendsData
        end
  | _, _ => trendsData
  end.

(** [getAllIndustryTrends], run against the outcomes [fetchTrend i] of its
    requests (by position).  The chart update it schedules with [nextTick]
    is [getAllIndustryTrends_settled] below. *)
Definition getAllIndustryTrends (fetchTrend : nat -> response (IndustryTrend num))
    (s : State num) : State num * list request :=
  let s0 := set_error None (set_loading true s) in
  if (0 <? length (industryAnalysis s0))%nat
  then
    let industries := map (industry (num:=num)) (industryAnalysis s0) in
    let trendPromises := imap (fun i _ => trendPromise (fetchTrend i)) industries in
    match promise_all trendPromises with
    | inl trends =>
        (set_loading false
           (set_allIndustryTrends (collectTrends industries trends ∅) s0),
         trendRequests s0)
    | inr message =>
        (set_loading false
           (set_error (Some ("获取行业趋势数据失败: " ++ message)) s0),
         trendRequests s0)
    end
  else (set_loading false s0, []).

(** Whether the [nextTick] callback of [getAllIndustryTrends] was scheduled. *)
Definition trendsJoined (fetchTrend : nat -> response (IndustryTrend num))
    (s : State num) : bool :=
  (0 <? length (industryAnalysis s))%nat &&
  match promise_all (imap (fun i _ => trendPromise (fetchTrend i)) (industryAnalysis s)) with
  | inl _ => true
  | inr _ => false
  end.

(** [getAllIndustryTrends] followed by the chart update it scheduled. *)
Definition getAllIndustryTrends_settled (rand : nat -> num)
    (fetchTrend : nat -> response (IndustryTrend num)) (s : State num)
  : State num * list request :=
  let '(s1, log) := getAllIndustryTrends fetchTrend s in
  (if trendsJoined fetchTrend s then updateIndustryChart rand s1 else s1, log).

(** [getIndustryAnalysis], up to the end of its own [finally].  When the
    page is not empty it calls [getAllIndustryTrends], whose synchronous
    part sets [loading] and [error] and issues the trend requests; the rest
    of that call and the scheduled chart update run afterwards
    ([getIndustryAnalysis_settled]). *)
Definition getIndustryAnalysis (resp : response (AnalysisPage num)) (s : State num)
  : State num * list request :=
  let s0 := set_error None (set_loading true s) in
  let req := ReqIndustryAnalysis (industryCurrentPage s0) (industryPageSize s0) in
  match resp with
  | JsonBody data =>
      let s1 := set_industryAnalysis (default [] (page_data data)) s0 in
      let s2 := set_totalIndustries (num_or (page_total data) (nlit 0)) s1 in
      if (0 <? length (industryAnalysis s2))%nat
      then (set_loading false (set_error None (set_loading true s2)),
            req :: trendRequests s2)
      else (set_loading false s2, [req])
  | _ =>
      let message := default "" (thrown_message resp) in
      (set_loading false
         (set_totalIndustries (nlit 0)
            (set_industryAnalysis []
               (set_error (Some ("获取行业分析失败: " ++ message)) s0))),
       [req])
  end.

(** The page once everything [getIndustryAnalysis] started has settled: the
    chart update scheduled with [nextTick] (drawing [rand1]), then the rest
    of [getAllIndustryTrends] and its own chart update (drawing [rand2]).
    The rest of [getAllIndustryTrends] is obtained by running it from its
    start, which assigns [loading] and [error] the same values again. *)
Definition getIndustryAnalysis_settled (rand1 rand2 : nat -> num)
    (resp : response (AnalysisPage num))
    (fetchTrend : nat -> response (IndustryTrend num)) (s : State num)
  : State num * list request :=
  let '(s1, log) := getIndustryAnalysis resp s in
  match resp with
  | JsonBody _ =>
      let s2 := updateIndustryChart rand1 s1 in
      if (0 <? length (industryAnalysis s2))%nat
      then (fst (getAllIndustryTrends_settled rand2 fetchTrend s2), log)
      else (s2, log)
  | _ => (s1, log)
  end.

Definition handleIndustryPageChange (page : Z) (resp : response (AnalysisPage num))
    (s : State num) : State num * list request :=
  getIndustryAnalysis resp (set_industryCurrentPage page s).

Definition handleIndustrySizeChange (size : Z) (resp : response (AnalysisPage num))
    (s : State num) : State num * list request :=
  getIndustryAnalysis resp (set_industryCurrentPage 1 (set_industryPageSize size s)).




End Handlers.

(** ** The local analysis: [analyzeIndustry] *)

(** How the evaluation of an expression ends. *)
Inductive completion (A : Type) : Type :=
| Normal (a : A)
| Throw (error_name : string) (message : string).

Arguments Throw {A} error_name message.

(** The names declared at the top level of the script, and the names bound
    in the body of [analyzeIndustry] where the result object is built. *)
Definition module_bindings : list string :=
  ["ref"; "onMounted"; "nextTick"; "echarts"; "Loading"; "activeTab";
   "industryAnalysis"; "industryTrend"; "allIndustryTrends"; "loading"; "error";
   "daysToShow"; "industryFilter"; "industryAnalysisResult"; "analyzingIndustry";
   "analysisLoading"; "industryCurrentPage"; "industryPageSize"; "totalIndustries";
   "industryChartRef"; "industryChart"; "marketHotmapRef"; "marketHotmapChart";
   "hotmapData"; "hotmapLoading"; "hotmapInitialized"; "API_BASE_URL";
   "getIndustryAnalysis"; "handleIndustryPageChange"; "handleIndustrySizeChange";
   "initIndustryChart"; "handleDaysChange"; "handleIndustryFilterChange";
   "getIndustryTrend"; "getAllIndustryTrends"; "updateIndustryChart";
   "analyzeIndustry"; "analyzeIndustryWithLLM"; "analyzeAllIndustriesWithLLM";
   "generateIndustrySummary"; "getHotmapData"; "initHotmapChart";
   "getIndustryStockHierarchy"; "convertApiDataToChartFormat"; "updateHotmapChart";
   "generateMockIndustryData"; "initHotmapChartWithSize"].

Definition analyzeIndustry_locals : list string :=
  ["industry"; "industryTrend"; "totalChange"; "totalVolatility"; "positiveDays";
   "negativeDays"; "stockCount"; "allDates"; "sortedDates"; "recentDates";
   "dailyPerformance"; "avgChange"; "volatility"].

Section Analysis.

Variable num : Type.
Context {JN : JSNumber num}.

(** An identifier with no binding in the enclosing function or at the top
    level of the script is looked up on the global object; when it is not
    there either, evaluating it throws a [ReferenceError]. *)
Definition free_identifier (globalThis : gmap string (jsprim num)) (x : string)
  : completion (jsprim num) :=
  match globalThis !! x with
  | Some v => Normal v
  | None => Throw "ReferenceError" (x ++ " is not defined")
  end.

Definition generateIndustrySummary (days : Z) (industry_name : string)
    (avgChange : num) (positiveRate : jsprim num) (volatility : num) : string :=
  let summary := industry_name ++ "行业在过去" ++ Z_to_string days ++ "天的表现：" in
  let summary :=
    if ngtb avgChange (nlit 0.5) then
      summary ++ "整体表现强劲，平均涨幅为"
        ++ toFixed2 (nmul avgChange (nlit 100)) ++ "%，"
    else if ngtb avgChange (nlit 0) then
      summary ++ "整体表现良好，平均涨幅为"
        ++ toFixed2 (nmul avgChange (nlit 100)) ++ "%，"
    else if ngtb avgChange (nlit (-0.5)) then
      summary ++ "整体表现平稳，平均跌幅为"
        ++ toFixed2 (nmul (nabs avgChange) (nlit 100)) ++ "%，"
    else
      summary ++ "整体表现较弱，平均跌幅为"
        ++ toFixed2 (nmul (nabs avgChange) (nlit 100)) ++ "%，" in
  let summary := summary ++ "上涨天数占比" ++ jsprim_to_string positiveRate ++ "%，" in
  let summary :=
    if ngtb volatility (nlit 2) then summary ++ "波动性较大，"
    else if ngtb volatility (nlit 1) then summary ++ "波动性适中，"
    else summary ++ "波动性较小，" in
  summary ++ "建议关注该行业的龙头股票表现，结合宏观经济环境和行业政策进行投资决策。".

(** The accumulators of the loop over [recentDates]. *)
Record DailyAcc : Type := {
  acc_dailyPerformance : list (DayPerformance num);
  acc_positiveDays : nat;
  acc_negativeDays : nat;
  acc_totalChange : num
}.

Definition analyzeDay (st : list (string * list (TrendPoint num)))
    (acc : DailyAcc) (d : string) : DailyAcc :=
  let '(dayChange, dayCount) :=
    fold_left (add_stock_change d) (map snd st) (nlit 0, 0%nat) in
  if (0 <? dayCount)%nat then
    let avgChange := ndiv dayChange (of_nat dayCount) in
    {| acc_dailyPerformance :=
         acc_dailyPerformance acc ++ [{| perf_date := d; perf_change := avgChange |}];
       acc_positiveDays :=
         if ngtb avgChange (nlit 0) then S (acc_positiveDays acc) else acc_positiveDays acc;
       acc_negativeDays :=
         if ngtb avgChange (nlit 0) then acc_negativeDays acc
         else if nltb avgChange (nlit 0) then S (acc_negativeDays acc)
         else acc_negativeDays acc;
       acc_totalChange := nadd (acc_totalChange acc) avgChange |}
  else acc.

(** The result object of lines 459-470.  Its properties are evaluated in
    order; the arguments of the call of [generateIndustrySummary] are
    [industry], [avgChange], [positiveRate] and [volatility], of which
    [positiveRate] is a free identifier. *)
Definition analysisObject (globalThis : gmap string (jsprim num)) (days : Z)
    (industry_name : string) (st : list (string * list (TrendPoint num)))
  : completion (AnalysisResult num) :=
  let stockCount := length (map fst st) in
  let allDates := fold_left (add_stock_dates (num:=num)) (map snd st) [] in
  let sortedDates := js_sort String.ltb allDates in
  let recentDates := js_slice_from (- days) sortedDates in
  let acc :=
    fold_left (analyzeDay st) recentDates
      {| acc_dailyPerformance := []; acc_positiveDays := 0; acc_negativeDays := 0;
         acc_totalChange := nlit 0 |} in
  let dailyPerformance := acc_dailyPerformance acc in
  let n := length dailyPerformance in
  let avgChange :=
    if (0 <? n)%nat then ndiv (acc_totalChange acc) (of_nat n) else nlit 0 in
  let volatility :=
    if (0 <? n)%nat then
      nsqrt (ndiv (fold_left
                     (fun sum day =>
                        nadd sum (npow (nsub (perf_change day) avgChange) (nlit 2)))
                     dailyPerformance (nlit 0))
                  (of_nat n))
    else nlit 0 in
  let positiveRate_property :=
    if (0 <? n)%nat
    then PStr (toFixed2 (nmul (ndiv (of_nat (acc_positiveDays acc)) (of_nat n)) (nlit 100)))
    else PNum (nlit 0) in
  match free_identifier globalThis "positiveRate" with
  | Throw e m => Throw e m
  | Normal positiveRate =>
      Normal
        (ResultLocal industry_name
           {| res_period := Z_to_string days ++ "天";
              res_stockCount := stockCount;
              res_avgChange := avgChange;
              res_volatility := volatility;
              res_positiveDays := acc_positiveDays acc;
              res_negativeDays := acc_negativeDays acc;
              res_positiveRate := positiveRate_property;
              res_dailyPerformance := dailyPerformance;
              res_summary :=
                generateIndustrySummary days industry_name avgChange positiveRate
                  volatility |})
  end.

Definition analyzeIndustry (globalThis : gmap string (jsprim num))
    (industry_name : string) (s : State num) : State num :=
  let s0 := set_industryAnalysisResult None
              (set_analyzingIndustry industry_name (set_analysisLoading true s)) in
  let after_try :=
    match allIndustryTrends s0 !! industry_name ≫= stock_trends (num:=num) with
    | None =>
        set_industryAnalysisResult
          (Some (ResultError industry_name "无法获取该行业的趋势数据")) s0
    | Some st =>
        match analysisObject globalThis (daysToShow s0) industry_name st with
        | Normal result => set_industryAnalysisResult (Some result) s0
        | Throw _ _ =>
            set_industryAnalysisResult
              (Some (ResultError industry_name "分析行业失败")) s0
        end
    end in
  set_analysisLoading false after_try.

End Analysis.

(** ** The treemap: hierarchy fetch, conversion and [updateHotmapChart] *)

Section Hotmap.

Variable num : Type.
Context {JN : JSNumber num}.

(** A stock and an industry as the hierarchy endpoint may send them; the
    conversion reads every field through fallbacks.  [children] and
    [stocks] are [Some] exactly when the field is an array. *)
Record ApiStock : Type := {
  api_stock_name : option string;        (* name *)
  api_stock_stock_name : option string;  (* stock_name *)
  api_stock_value : option (jsv num);    (* value *)
  api_stock_market_cap : option num;     (* market_cap *)
  api_stock_marketCap : option num;      (* marketCap *)
  api_stock_increase : option num;       (* increase *)
  api_stock_change : option num          (* change *)
}.

Record ApiIndustry : Type := {
  api_name : option string;              (* name *)
  api_industry : option string;          (* industry *)
  api_value : option (jsv num);          (* value *)
  api_market_cap : option num;           (* market_cap *)
  api_marketCap : option num;            (* marketCap *)
  api_stock_count : option num;          (* stock_count *)
  api_total_stock_count : option num;    (* total_stock_count *)
  api_stockCount : option num;           (* stockCount *)
  api_increase : option num;             (* increase *)
  api_change : option num;               (* change *)
  api_children : option (list ApiStock); (* children *)
  api_stocks : option (list ApiStock)    (* stocks *)
}.

(** The parsed body of the hierarchy endpoint, by the shapes the source
    tells apart. *)
Inductive HierarchyBody : Type :=
| HData (l : list ApiIndustry)      (* { data: [...] } *)
| HArray (l : list ApiIndustry)     (* [...] *)
| HObject (o : ApiIndustry)         (* another object: taken as one industry *)
| HPrimitive                        (* a number, a string or a boolean *)
| HNull.                            (* null: reading [data.data] throws *)

(** [getIndustryStockHierarchy]: every failure is caught and gives []. *)
Definition getIndustryStockHierarchy (resp : response HierarchyBody)
  : list ApiIndustry * list request :=
  (match resp with
   | JsonBody (HData l) => l
   | JsonBody (HArray l) => l
   | JsonBody (HObject o) => [o]
   | JsonBody HPrimitive => []
   | JsonBody HNull => []
   | _ => []
   end, [ReqStockHierarchy]).

(** [v?.[k]] *)
Definition opt_index (v : option (jsv num)) (k : nat) : option num :=
  match v with
  | Some (VArr l) => l !! k
  | _ => None
  end.

(** [a || b] where [a] is a Number or an array. *)
Definition jsv_or (a : option (jsv num)) (b : jsv num) : jsv num :=
  match a with
  | Some v => if jsv_truthy v then v else b
  | None => b
  end.

Definition convertStock (stock : ApiStock) : HotmapStock num :=
  {| stock_node_name :=
       str_or (api_stock_name stock) (str_or (api_stock_stock_name stock) "未知股票");
     stock_node_value :=
       {| value_0 :=
            jsv_or (api_stock_value stock)
              (VNum (num_or (api_stock_market_cap stock)
                       (num_or (api_stock_marketCap stock)
                          (num_or (opt_index (api_stock_value stock) 0) (nlit 0)))));
          value_1 := nlit 1;
          value_2 :=
            num_or (api_stock_increase stock)
              (num_or (api_stock_change stock)
                 (num_or (opt_index (api_stock_value stock) 2) (nlit 0)));
          value_3 := None |} |}.

Definition convertIndustry (ind : ApiIndustry) : HotmapNode num :=
  {| node_name := str_or (api_name ind) (str_or (api_industry ind) "未知行业");
     node_value :=
       {| value_0 :=
            jsv_or (api_value ind)
              (VNum (num_or (api_market_cap ind)
                       (num_or (api_marketCap ind)
                          (num_or (opt_index (api_value ind) 0) (nlit 0)))));
          value_1 :=
            num_or (api_stock_count ind)
              (num_or (api_total_stock_count ind)
                 (num_or (api_stockCount ind)
                    (num_or (opt_index (api_value ind) 1) (nlit 0))));
          value_2 :=
            num_or (api_increase ind)
              (num_or (api_change ind)
                 (num_or (opt_index (api_value ind) 2) (nlit 0)));
          value_3 := None |};
     node_stock_count :=
       num_or (api_stock_count ind)
         (num_or (api_total_stock_count ind)
            (num_or (api_stockCount ind) (nlit 0)));
     node_children :=
       match api_children ind with
       | Some stocks => map convertStock stocks
       | None =>
           match api_stocks ind with
           | Some stocks => map convertStock stocks
           | None => []
           end
       end |}.

(** [convertApiDataToChartFormat]; its argument is always an array here. *)
Definition convertApiDataToChartFormat (apiData : list ApiIndustry)
  : list (HotmapNode num) :=
  map convertIndustry apiData.

Definition mockValue (a b c : Q) : HotValue num :=
  {| value_0 := VNum (nlit a); value_1 := nlit b; value_2 := nlit c;
     value_3 := None |}.

Definition mockStock (name : string) (a b c : Q) : HotmapStock num :=
  {| stock_node_name := name; stock_node_value := mockValue a b c |}.

(** The embedded static data. *)
Definition mockData : list (HotmapNode num) :=
  [ {| node_name := "银行";
       node_value := mockValue 100000 95000 0.5;
       node_stock_count := nlit 3;
       node_children :=
         [ mockStock "平安银行" 3000 2800 1.2;
           mockStock "招商银行" 5000 4800 0.8;
           mockStock "工商银行" 8000 7900 0.3 ] |};
    {| node_name := "医药生物";
       node_value := mockValue 80000 75000 1.2;
       node_stock_count := nlit 3;
       node_children :=
         [ mockStock "恒瑞医药" 2000 1950 2.5;
           mockStock "药明康德" 1500 1450 1.8;
           mockStock "长春高新" 1000 1020 (-0.5) ] |};
    {| node_name := "电子";
       node_value := mockValue 120000 125000 (-0.8);
       node_stock_count := nlit 3;
       node_children :=
         [ mockStock "贵州茅台" 25000 24800 0.7;
           mockStock "宁德时代" 10000 9700 3.2;
           mockStock "比亚迪" 8000 8200 (-1.9) ] |} ].

(** [value[3] = value[2] * 10] *)
Definition set_visual (value : HotValue num) : HotValue num :=
  {| value_0 := value_0 value;
     value_1 := value_1 value;
     value_2 := value_2 value;
     value_3 := Some (nmul (value_2 value) (nlit 10)) |}.

(** [convertData]: the nodes and the children are never null here and
    always carry a [value] array, so the guards of the source all pass. *)
Definition convertData (originList : list (HotmapNode num)) : list (HotmapNode num) :=
  map (fun node =>
         {| node_name := node_name node;
            node_value := set_visual (node_value node);
            node_stock_count := node_stock_count node;
            node_children :=
              map (fun child =>
                     {| stock_node_name := stock_node_name child;
                        stock_node_value := set_visual (stock_node_value child) |})
                  (node_children node) |})
      originList.

(** [updateHotmapChart].  The chart calls do not throw in this model, so
    the [catch] clause (which renders the same static data) is not
    entered; the repeat of [setOption] scheduled with [setTimeout] gives
    the same option again. *)
Definition updateHotmapChart (resp : response HierarchyBody) (s : State num)
  : State num * list request :=
  let ready :=
    match marketHotmapChart s with
    | Some _ => marketHotmapRef s
    | None => false
    end in
  let s1 :=
    if ready then Some s
    else if marketHotmapRef s
         then Some (set_marketHotmapChart (Some (echarts_init (list (HotmapNode num)))) s)
         else None in
  match s1 with
  | None => (set_hotmapLoading false s, [])
  | Some s1 =>
      match marketHotmapChart s1 with
      | None => (set_hotmapLoading false s1, [])
      | Some chart =>
          let s2 := set_hotmapLoading true s1 in
          let '(apiData, log) := getIndustryStockHierarchy resp in
          let chartData := convertApiDataToChartFormat apiData in
          let finalData :=
            if (0 <? length chartData)%nat then chartData else mockData in
          let finalData := convertData finalData in
          let cleared := set_marketHotmapChart
                           (Some (echarts_init (list (HotmapNode num)))) s2 in
          if marketHotmapRef cleared
          then (set_hotmapLoading false
                  (set_marketHotmapChart
                     (Some (setOption finalData (echarts_init (list (HotmapNode num)))))
                     cleared),
                log)
          else (set_hotmapLoading false cleared, log)
      end
  end.

(** The data the treemap currently shows. *)
Definition shownHotmap (s : State num) : option (list (HotmapNode num)) :=
  marketHotmapChart s ≫= chart_option (O:=list (HotmapNode num)).

(** [initHotmapChart], [getHotmapData] *)
Definition initHotmapChart (resp : response HierarchyBody) (s : State num)
  : State num * list request :=
  if marketHotmapRef s
  then updateHotmapChart resp
         (set_marketHotmapChart (Some (echarts_init (list (HotmapNode num)))) s)
  else (s, []).

Definition getHotmapData (resp : response HierarchyBody) (s : State num)
  : State num * list request :=
  updateHotmapChart resp (set_error None (set_hotmapLoading true s)).

End Hotmap.

Arguments mockData {num JN}.

(** ** Notions the properties are stated with *)

Section Notions.

Variable num : Type.
Context {JN : JSNumber num}.

(** The arithmetic mean as the page computes means: the sum from 0 in list
    order, divided by the number of elements. *)
Definition mean (l : list num) : num :=
  ndiv (fold_left nadd l (nlit 0)) (of_nat (length l)).

(** What a stock contributes on a date: the [change_percent] of its first
    record of that date, if that record has one. *)
Definition first_record_change (d : string) (stockData : list (TrendPoint num))
  : option num :=
  List.find (fun item => bool_decide (date item = d)) stockData
    ≫= change_percent (num:=num).

Definition contributions (st : list (string * list (TrendPoint num))) (d : string)
  : list num :=
  omap (first_record_change d) (map snd st).

(** The stocks "that have a record for that date with change_percent
    defined", each with the [change_percent] of its first such record. *)
Definition defined_record_change (d : string) (stockData : list (TrendPoint num))
  : option num :=
  head (omap (fun item =>
                if bool_decide (date item = d) then change_percent item else None)
             stockData).

Definition stated_contributions (st : list (string * list (TrendPoint num)))
    (d : string) : list num :=
  omap (defined_record_change d) (map snd st).

(** [updateIndustryChart] gets as far as [setOption]: the page is not empty
    and the chart exists or can be created. *)
Definition canDrawLineChart (s : State num) : bool :=
  negb (length (industryAnalysis s) =? 0)%nat &&
  (bool_decide (is_Some (industryChart s)) || industryChartRef s).


Definition failed {A} (r : response A) : Prop := is_Some (thrown_message r).



(** What claim C6 says [allIndustryTrends] is after [getAllIndustryTrends]:
    an entry for exactly the names whose request gave an ok response with a
    [stock_trends] field, the entry carrying that name. *)
Definition trendDelivered (r : response (IndustryTrend num)) : Prop :=
  exists t st, r = JsonBody t /\ stock_trends t = Some st.

Definition C6_map_as_stated
    (fetchTrend : nat -> response (IndustryTrend num)) (s s' : State num) : Prop :=
  forall name,
    (is_Some (allIndustryTrends s' !! name) <->
     exists i item, industryAnalysis s !! i = Some item /\ industry item = name /\
                    trendDelivered (fetchTrend i)) /\
    (forall t, allIndustryTrends s' !! name = Some t -> trend_industry t = name).

(** The value one of the parallel trend requests contributes to [trends]
    once all of them have settled without rejection. *)
Definition trendValue (r : response (IndustryTrend num)) : option (IndustryTrend num) :=
  match r with
  | JsonBody t => Some t
  | _ => None
  end.

(** Index 3 of a [value] array holds index 2 times 10. *)
Definition visual_ok (value : HotValue num) : Prop :=
  value_3 value = Some (nmul (value_2 value) (nlit 10)).

Definition node_visual_ok (node : HotmapNode num) : Prop :=
  visual_ok (node_value node) /\
  Forall (fun child => visual_ok (stock_node_value child)) (node_children node).

(** [finalData] of [updateHotmapChart] before [convertData]. *)
Definition finalDataOf (resp : response (HierarchyBody num)) : list (HotmapNode num) :=
  let chartData := convertApiDataToChartFormat (fst (getIndustryStockHierarchy resp)) in
  if (0 <? length chartData)%nat then chartData else mockData.

End Notions.

(** ** Worked states (exact rationals) *)

Module Examples.

(** The state of a mounted page before any response: the initial values of
    the refs, with both chart containers in the document. *)
Definition mountedState : State Q :=
  {| industryAnalysis := []; industryTrend := None; allIndustryTrends := ∅;
     loading := false; error := None; daysToShow := 90%Z; industryFilter := "top3";
     industryAnalysisResult := None; analyzingIndustry := "";
     analysisLoading := false; industryCurrentPage := 1%Z;
     industryPageSize := 20%Z; totalIndustries := 0%Q;
     industryChartRef := true; industryChart := None;
     marketHotmapRef := true; marketHotmapChart := None; hotmapLoading := false |}.

Definition point (d : string) (c : option Q) : TrendPoint Q :=
  {| date := d; close := 10%Q; change_percent := c |}.

Definition summary (name : string) (avg : Q) : IndustrySummary Q :=
  {| industry := name; stock_count := 2%Q; avg_change := avg;
     avg_volatility := 4%Q |}.

Definition bank : IndustrySummary Q := summary "银行" 0.45.
Definition electronics : IndustrySummary Q := summary "电子" 0.1.
Definition pharma : IndustrySummary Q := summary "医药生物" 0.3.
Definition realty : IndustrySummary Q := summary "房地产" (-0.2).

(** The trend of 银行: stock 600000 has two records of 2025-01-02, the
    first without [change_percent]; no stock has a [change_percent] on
    2025-01-01. *)
Definition bankStocks : list (string * list (TrendPoint Q)) :=
  [ ("600000", [ point "2025-01-02" None;
                 point "2025-01-02" (Some 4%Q);
                 point "2025-01-03" (Some 1%Q) ]);
    ("600036", [ point "2025-01-01" None;
                 point "2025-01-02" (Some 2%Q) ]) ].

Definition bankTrend : IndustryTrend Q :=
  {| trend_industry := "银行"; trend_stock_count := Some 2%Q;
     stock_trends := Some bankStocks |}.

(** A page of two industries of which only 银行 has trend data. *)
Definition twoIndustries : State Q :=
  set_allIndustryTrends (<["银行" := bankTrend]> ∅)
    (set_industryAnalysis [electronics; bank] mountedState).

(** The same page before any trend has arrived. *)
Definition freshPage : State Q :=
  set_industryAnalysis [electronics; bank] mountedState.

(** A page of four industries. *)
Definition fourIndustries : State Q :=
  set_industryAnalysis [electronics; bank; realty; pharma] mountedState.

Definition noRandom : nat -> Q := fun _ => 0%Q.
Definition someRandom : nat -> Q := fun _ => (3 # 4)%Q.

(** Outcomes of the trend requests of [twoIndustries]: the first body does
    not parse, the second is the trend of 银行. *)
Definition oneBadBody (i : nat) : response (IndustryTrend Q) :=
  match i with
  | O => JsonRejected "Unexpected token < in JSON at position 0"
  | _ => JsonBody bankTrend
  end.

(** The first request gets a 500, the second the trend of 银行. *)
Definition oneHttpError (i : nat) : response (IndustryTrend Q) :=
  match i with
  | O => HttpError 500
  | _ => JsonBody bankTrend
  end.

End Examples.

(** Claim C10 as worded: every point of a mock series is the base value
    plus an offset strictly between -1 and 1, for values of [Math.random()]
    in its range, from 0 (included) to 1 (excluded). *)
Definition C10_as_stated : Prop :=
  forall (rand : nat -> Q) (s : State Q) (i j : nat) ind d,
    (forall n, (0 <= rand n)%Q /\ (rand n < 1)%Q) ->
    canDrawLineChart s = true ->
    industriesToShow s !! i = Some ind ->
    allIndustryTrends s !! industry ind = None ->
    recentDates s !! j = Some d ->
    exists o n,
      shownLineChart (updateIndustryChart rand s) = Some o /\
      plotted o i j =
      Some (toFixed2 (nadd (nmul (avg_change ind) (nlit 100)) (randomFactor (rand n)))) /\
      (-1 < randomFactor (rand n))%Q /\ (randomFactor (rand n) < 1)%Q.

(** ** Notions for the date axis and for what a handler leaves alone *)

Section AxisNotions.

Variable num : Type.
Context {JN : JSNumber num}.

(** [d] is the non-empty date of a record of a stock of the trend. *)
Definition dateOfTrend (trend : option (IndustryTrend num)) (d : string) : Prop :=
  d <> "" /\
  exists t st code stockData item,
    trend = Some t /\ stock_trends t = Some st /\
    (code, stockData) ∈ st /\ item ∈ stockData /\ date item = d.

(** [d] is a date of the trend data of an industry that is charted. *)
Definition displayedDate (s : State num) (d : string) : Prop :=
  exists ind, ind ∈ industriesToShow s /\
              dateOfTrend (allIndustryTrends s !! industry ind) d.

(** [s'] is [s] but for the line chart. *)
Definition sameButLineChart (s s' : State num) : Prop :=
  s' = set_industryChart (industryChart s') s.

(** [s'] is [s] but for the treemap and its loading flag. *)
Definition sameButHotmap (s s' : State num) : Prop :=
  s' = set_hotmapLoading (hotmapLoading s')
         (set_marketHotmapChart (marketHotmapChart s') s).

(** [s'] is [s] but for the three fields of the local and LLM analyses. *)
Definition sameButAnalysis (s s' : State num) : Prop :=
  s' = set_analysisLoading (analysisLoading s')
         (set_industryAnalysisResult (industryAnalysisResult s')
            (set_analyzingIndustry (analyzingIndustry s') s)).

(** The strict order of the default sort of strings. *)
Definition before_date (a b : string) : Prop := String.ltb a b = true.

(** The four parts of a converted [value] array that [convertData] keeps. *)
Definition sameButVisual (v v' : HotValue num) : Prop :=
  value_0 v' = value_0 v /\ value_1 v' = value_1 v /\ value_2 v' = value_2 v.

(** [v'] is the [value] array [v] once [convertData] has passed: indices 0
    to 2 as they were, index 3 the value at index 2 times 10. *)
Definition visual_of (v v' : HotValue num) : Prop :=
  sameButVisual v v' /\ value_3 v' = Some (nmul (value_2 v) (nlit 10)).

(** [node'] is [node] with the visual value filled in, in the node and in
    each of its stocks. *)
Definition node_visual_of (node node' : HotmapNode num) : Prop :=
  node_name node' = node_name node /\
  node_stock_count node' = node_stock_count node /\
  visual_of (node_value node) (node_value node') /\
  Forall2 (fun child child' =>
             stock_node_name child' = stock_node_name child /\
             visual_of (stock_node_value child) (stock_node_value child'))
          (node_children node) (node_children node').

(** What the loop of [analyzeIndustry] over the dates keeps true of its
    accumulators. *)
Definition analysis_invariant (st : list (string * list (TrendPoint num)))
    (acc : DailyAcc num) : Prop :=
  (acc_positiveDays acc + acc_negativeDays acc
   <= length (acc_dailyPerformance acc))%nat /\
  Forall (fun day => contributions st (perf_date day) <> [] /\
                     perf_change day = mean (contributions st (perf_date day)))
         (acc_dailyPerformance acc).

End AxisNotions.

Module MoreExamples.

(** A page whose only industry has trend data. *)
Definition onlyBank : State Q :=
  set_industryAnalysis [Examples.bank] Examples.twoIndustries.

(** A global object on which [positiveRate] is defined. *)
Definition withPositiveRate : gmap string (jsprim Q) :=
  <["positiveRate" := PStr "50.00"]> ∅.

Definition apiStock (name : string) (cap change : Q) : ApiStock Q :=
  {| api_stock_name := Some name; api_stock_stock_name := None;
     api_stock_value := None; api_stock_market_cap := Some cap;
     api_stock_marketCap := None; api_stock_increase := None;
     api_stock_change := Some change |}.

(** An industry sent with a [value] array and its stocks under [stocks]. *)
Definition apiBank : ApiIndustry Q :=
  {| api_name := None; api_industry := Some "银行";
     api_value := Some (VArr [90000; 2; 0.4]%Q);
     api_market_cap := None; api_marketCap := None;
     api_stock_count := None; api_total_stock_count := None;
     api_stockCount := None; api_increase := None; api_change := None;
     api_children := None;
     api_stocks := Some [apiStock "平安银行" 3000 1.2; apiStock "招商银行" 5000 0.8] |}.




(** A page without the chart containers in the document. *)
Definition unmountedState : State Q :=
  {| industryAnalysis := [Examples.bank]; industryTrend := None;
     allIndustryTrends := ∅; loading := false; error := None;
     daysToShow := 90%Z; industryFilter := "top3";
     industryAnalysisResult := None; analyzingIndustry := "";
     analysisLoading := false; industryCurrentPage := 1%Z;
     industryPageSize := 20%Z; totalIndustries := 0%Q;
     industryChartRef := false; industryChart := None;
     marketHotmapRef := false; marketHotmapChart := None;
     hotmapLoading := true |}.

End MoreExamples.

(** * Properties *)

Unset Implicit Arguments.

(** Closes a goal between closed terms by evaluating both sides. *)
Ltac by_computation := vm_compute; reflexivity.

(** ** Worked examples *)

Example toFixed2_examples :
  toFixed2 (1 # 3)%Q = "0.33" /\ toFixed2 (5 # 1000)%Q = "0.01" /\
  toFixed2 (-5 # 2)%Q = "-2.50" /\ toFixed2 (-1 # 1000)%Q = "-0.00" /\
  toFixed2 0%Q = "0.00".
Proof. repeat split. Qed.

Example js_slice_from_examples :
  js_slice_from (-2) [1; 2; 3; 4]%nat = [3; 4]%nat /\
  js_slice_from (-9) [1; 2; 3; 4]%nat = [1; 2; 3; 4]%nat /\
  js_slice_from (- 0) [1; 2; 3; 4]%nat = [1; 2; 3; 4]%nat.
Proof. repeat split. Qed.

(** The sort keeps the order of elements that compare equal. *)
Example js_sort_stable_example :
  js_sort (fun a b => (fst a <? fst b)%nat) [(2, "a"); (1, "b"); (2, "c"); (1, "d")]%nat
  = [(1, "b"); (1, "d"); (2, "a"); (2, "c")]%nat.
Proof. reflexivity. Qed.

(** The chart of [twoIndustries]: 银行 is drawn from its trend, 电子 from
    random values (here all 0, so every point is 0.1 * 100 - 1). *)
Example lineChart_twoIndustries :
  shownLineChart (updateIndustryChart Examples.noRandom Examples.twoIndustries)
  = Some {| chart_dates := ["2025-01-01"; "2025-01-02"; "2025-01-03"];
            chart_series :=
              [ {| series_name := "银行";
                   series_data := ["0"; "2.00"; "1.00"];
                   series_color := "#67c23a" |};
                {| series_name := "电子";
                   series_data := ["9.00"; "9.00"; "9.00"];
                   series_color := "#f56c6c" |} ] |}.
Proof. by_computation. Qed.

(** A trend request answered with a status that is not ok only loses its
    own industry. *)
Example trends_with_one_http_error :
  let s' := fst (getAllIndustryTrends Examples.oneHttpError Examples.freshPage) in
  dom (allIndustryTrends s') = ({["银行"]} : gset string) /\ error s' = None.
Proof. split; by_computation. Qed.

(** With [positiveRate] defined on the global object the analysis would be
    stored. *)
Example analyzeIndustry_with_global_positiveRate :
  exists r,
    industryAnalysisResult
      (analyzeIndustry (<["positiveRate" := PStr "50.00"]> ∅) "银行"
         Examples.twoIndustries)
    = Some (ResultLocal "银行" r) /\
    res_positiveDays r = 2%nat /\ res_positiveRate r = PStr "100.00".
Proof. eexists. split; [by_computation|]. split; reflexivity. Qed.

(** ** The stable sort *)

Section SortFacts.

Context {A : Type} (lt : A -> A -> bool).

Lemma js_sort_insert_perm (x : A) (l : list A) :
  js_sort_insert lt x l ≡ₚ x :: l.
Proof.
  induction l as [|y ys IH]; simpl; [reflexivity|].
  destruct (lt y x); [|reflexivity].
  rewrite IH. apply Permutation_swap.
Qed.

Lemma js_sort_perm (l : list A) : js_sort lt l ≡ₚ l.
Proof.
  induction l as [|x xs IH]; simpl; [reflexivity|].
  rewrite js_sort_insert_perm. by rewrite IH.
Qed.

Lemma js_sort_length (l : list A) : length (js_sort lt l) = length l.
Proof. apply Permutation_length, js_sort_perm. Qed.


Hypothesis lt_asym : forall a b, lt a b = true -> lt b a = false.
Hypothesis not_after_trans :
  forall a b c, not_after lt a b -> not_after lt b c -> not_after lt a c.

Lemma js_sort_insert_sorted (x : A) (l : list A) :
  StronglySorted (not_after lt) l -> StronglySorted (not_after lt) (js_sort_insert lt x l).
Proof.
  induction 1 as [|y ys Hs IH Hy]; simpl.
  - repeat constructor.
  - destruct (lt y x) eqn:E.
    + constructor; [exact IH|].
      rewrite js_sort_insert_perm. constructor; [|exact Hy].
      unfold not_after. by apply lt_asym.
    + constructor; [by constructor|].
      constructor; [exact E|].
      eapply Forall_impl; [exact Hy|].
      intros z Hz. by apply not_after_trans with y.
Qed.

Lemma js_sort_sorted (l : list A) : StronglySorted (not_after lt) (js_sort lt l).
Proof.
  induction l as [|x xs IH]; simpl; [constructor|].
  by apply js_sort_insert_sorted.
Qed.

End SortFacts.

Lemma sorted_take_drop {A} (R : A -> A -> Prop) (l : list A) (n : nat) :
  StronglySorted R l ->
  forall a b, a ∈ take n l -> b ∈ drop n l -> R a b.
Proof.
  intros Hs. revert n.
  induction Hs as [|x xs Hs IH Hx]; intros n a b Ha Hb.
  - rewrite take_nil in Ha. by apply elem_of_nil in Ha.
  - destruct n as [|n]; simpl in *.
    + by apply elem_of_nil in Ha.
    + apply elem_of_cons in Ha as [->|Ha].
      * rewrite Forall_forall in Hx. apply Hx.
        by apply (subseteq_drop n xs).
      * by apply (IH n).
Qed.

(** ** The line chart *)

Section LineChartFacts.

Context {num : Type} {JN : JSNumber num}.

Lemma buildSeries_ext (s s' : State num) (rand : nat -> num) (dates : list string) :
  (forall ind, realTrendOf s ind = realTrendOf s' ind) ->
  forall inds index k,
    buildSeries s rand dates inds index k = buildSeries s' rand dates inds index k.
Proof.
  intros Hreal. induction inds as [|x xs IH]; intros index k; [reflexivity|].
  simpl. rewrite <- Hreal. destruct (realTrendOf s x); by rewrite IH.
Qed.

Lemma lineChartOption_set_industryChart (rand : nat -> num) c (s : State num) :
  lineChartOption rand (set_industryChart c s) = lineChartOption rand s.
Proof.
  unfold lineChartOption. f_equal.
  apply buildSeries_ext. reflexivity.
Qed.

Lemma updateIndustryChart_draws (rand : nat -> num) (s : State num) :
  canDrawLineChart s = true ->
  shownLineChart (updateIndustryChart rand s) = Some (lineChartOption rand s).
Proof.
  unfold canDrawLineChart, updateIndustryChart, shownLineChart.
  intros H. apply andb_true_iff in H as [Hlen Hchart].
  apply negb_true_iff in Hlen. rewrite Hlen.
  destruct (industryChart s) as [chart|] eqn:Ec; simpl.
  - rewrite Ec. reflexivity.
  - destruct (industryChartRef s); simpl;
      [by rewrite lineChartOption_set_industryChart|].
    rewrite bool_decide_eq_false_2 in Hchart; [discriminate|].
    intros [? ?]; discriminate.
Qed.

Lemma updateIndustryChart_industryAnalysis (rand : nat -> num) (s : State num) :
  industryAnalysis (updateIndustryChart rand s) = industryAnalysis s.
Proof.
  unfold updateIndustryChart.
  destruct (length (industryAnalysis s) =? 0)%nat; [reflexivity|].
  destruct (industryChart s) eqn:Ec; simpl.
  - rewrite Ec. reflexivity.
  - destruct (industryChartRef s); simpl; [reflexivity|].
    rewrite Ec. reflexivity.
Qed.

Lemma buildSeries_lookup (s : State num) (rand : nat -> num) (dates : list string) :
  forall inds index k i ind,
    inds !! i = Some ind ->
    exists k',
      buildSeries s rand dates inds index k !! i =
      Some {| series_name := industry ind;
              series_data :=
                match realTrendOf s ind with
                | Some st => map (dateAverage st) dates
                | None => mockSeriesData rand k' ind dates
                end;
              series_color := color_of (index + i) |}.
Proof.
  induction inds as [|x xs IH]; intros index k i ind Hi; [discriminate|].
  destruct i as [|i]; simpl in Hi.
  - injection Hi as ->. exists k. simpl.
    rewrite Nat.add_0_r. destruct (realTrendOf s ind); reflexivity.
  - replace (index + S i)%nat with (S index + i)%nat by lia.
    simpl. destruct (realTrendOf s x).
    + destruct (IH (S index) k i ind Hi) as [k' Hk'].
      exists k'. exact Hk'.
    + destruct (IH (S index) (k + length dates)%nat i ind Hi) as [k' Hk'].
      exists k'. exact Hk'.
Qed.

Lemma buildSeries_names (s : State num) (rand : nat -> num) (dates : list string) :
  forall inds index k,
    map series_name (buildSeries s rand dates inds index k)
    = map (industry (num:=num)) inds.
Proof.
  induction inds as [|x xs IH]; intros index k; [reflexivity|].
  simpl. destruct (realTrendOf s x); simpl; by rewrite IH.
Qed.

Lemma realTrendOf_Some (s : State num) ind trend st :
  allIndustryTrends s !! industry ind = Some trend ->
  stock_trends trend = Some st ->
  realTrendOf s ind = Some st.
Proof.
  intros Ht Hst. unfold realTrendOf.
  assert (size (allIndustryTrends s) <> 0%nat) as Hsz
    by (apply (map_size_ne_0_lookup_2 _ (industry ind)); eauto).
  apply Nat.eqb_neq in Hsz. rewrite Hsz. simpl.
  rewrite Ht. simpl. exact Hst.
Qed.

Lemma realTrendOf_None (s : State num) ind :
  allIndustryTrends s !! industry ind = None ->
  realTrendOf s ind = None.
Proof.
  intros Ht. unfold realTrendOf.
  destruct (negb _); [|reflexivity]. by rewrite Ht.
Qed.

Lemma add_stock_change_contribution (d : string) (acc : num * nat)
    (stockData : list (TrendPoint num)) :
  add_stock_change d acc stockData =
  match first_record_change d stockData with
  | Some cp => (nadd (fst acc) cp, S (snd acc))
  | None => acc
  end.
Proof.
  unfold add_stock_change, first_record_change.
  destruct (List.find _ stockData) as [r|]; reflexivity.
Qed.

(** The loop with its two accumulators computes the sum and the number of
    the contributions. *)
Lemma fold_add_stock_change (d : string) (stocks : list (list (TrendPoint num))) :
  forall t c,
    fold_left (add_stock_change d) stocks (t, c)
    = (fold_left nadd (omap (first_record_change d) stocks) t,
       (c + length (omap (first_record_change d) stocks))%nat).
Proof.
  induction stocks as [|x xs IH]; intros t c; simpl.
  - by rewrite Nat.add_0_r.
  - rewrite add_stock_change_contribution.
    destruct (first_record_change d x) as [cp|]; simpl.
    + rewrite IH. f_equal.
      change (S c + length (omap (first_record_change d) xs)
              = c + S (length (omap (first_record_change d) xs)))%nat.
      lia.
    + apply IH.
Qed.

Lemma dateAverage_mean st (d : string) :
  contributions st d <> [] ->
  dateAverage st d = toFixed2 (mean (contributions st d)).
Proof.
  intros Hne. unfold dateAverage, mean, contributions in *.
  rewrite fold_add_stock_change. simpl.
  destruct (omap (first_record_change d) (map snd st)); [done|reflexivity].
Qed.

Lemma dateAverage_zero st (d : string) :
  contributions st d = [] ->
  dateAverage st d = "0".
Proof.
  intros He. unfold dateAverage, contributions in *.
  rewrite fold_add_stock_change, He. reflexivity.
Qed.

(** The point of a series with real data. *)
Lemma plotted_real (rand : nat -> num) (s : State num) (i j : nat) ind trend st d :
  canDrawLineChart s = true ->
  industriesToShow s !! i = Some ind ->
  allIndustryTrends s !! industry ind = Some trend ->
  stock_trends trend = Some st ->
  recentDates s !! j = Some d ->
  exists o,
    shownLineChart (updateIndustryChart rand s) = Some o /\
    plotted o i j = Some (dateAverage st d).
Proof.
  intros Hdraw Hi Ht Hst Hj.
  exists (lineChartOption rand s). split; [by apply updateIndustryChart_draws|].
  unfold plotted, lineChartOption; simpl.
  destruct (buildSeries_lookup s rand (recentDates s) _ 0 0 _ _ Hi) as [k' ->].
  simpl. rewrite (realTrendOf_Some _ _ _ _ Ht Hst).
  rewrite list_lookup_fmap, Hj. reflexivity.
Qed.

(** The point of a mock series. *)
Lemma plotted_mock (rand : nat -> num) (s : State num) (i j : nat) ind d :
  canDrawLineChart s = true ->
  industriesToShow s !! i = Some ind ->
  allIndustryTrends s !! industry ind = None ->
  recentDates s !! j = Some d ->
  exists o n,
    shownLineChart (updateIndustryChart rand s) = Some o /\
    plotted o i j =
    Some (toFixed2 (nadd (nmul (avg_change ind) (nlit 100)) (randomFactor (rand n)))).
Proof.
  intros Hdraw Hi Ht Hj.
  destruct (buildSeries_lookup s rand (recentDates s) _ 0 0 _ _ Hi) as [k' Hk'].
  exists (lineChartOption rand s), (k' + j)%nat.
  split; [by apply updateIndustryChart_draws|].
  unfold plotted, lineChartOption; simpl. rewrite Hk'. simpl.
  rewrite (realTrendOf_None _ _ Ht). unfold mockSeriesData.
  rewrite list_lookup_imap, Hj. reflexivity.
Qed.

End LineChartFacts.

Lemma contributions_nil_of_no_defined_record {num} `{JSNumber num}
    (st : list (string * list (TrendPoint num))) (d : string) :
  (forall code stockData item,
     (code, stockData) ∈ st -> item ∈ stockData -> date item = d ->
     change_percent item = None) ->
  contributions st d = [].
Proof.
  unfold contributions.
  induction st as [|[code stockData] rest IH]; intros Hnone; [reflexivity|].
  csimpl.
  assert (first_record_change d stockData = None) as ->.
  { unfold first_record_change.
    destruct (List.find _ stockData) as [r|] eqn:Ef; [|reflexivity].
    apply find_some in Ef as [Hin Hd]. simpl.
    apply (Hnone code stockData r).
    - apply elem_of_cons. by left.
    - by apply list_elem_of_In.
    - by apply bool_decide_eq_true_1 in Hd. }
  apply IH. intros code' sd item Hin. apply (Hnone code' sd item).
  apply elem_of_cons. by right.
Qed.

Lemma no_record_of_date {num} `{JSNumber num}
    (d : string) (rs : list (TrendPoint num)) :
  d ∉ map (date (num:=num)) rs ->
  omap (fun item => if bool_decide (date item = d) then change_percent item else None)
       rs = [].
Proof.
  induction rs as [|r rs IH]; intros Hnotin; [reflexivity|].
  csimpl. rewrite bool_decide_eq_false_2.
  - apply IH. intros Hin. apply Hnotin. simpl. apply elem_of_cons. by right.
  - intros Hd. apply Hnotin. simpl. apply elem_of_cons. by left.
Qed.

Lemma defined_record_change_unique {num} `{JSNumber num}
    (d : string) (stockData : list (TrendPoint num)) :
  NoDup (map (date (num:=num)) stockData) ->
  defined_record_change d stockData = first_record_change d stockData.
Proof.
  unfold defined_record_change, first_record_change.
  induction stockData as [|r rs IHr]; intros Hnd; [reflexivity|].
  change (map (date (num:=num)) (r :: rs))
    with (date r :: map (date (num:=num)) rs) in Hnd.
  apply NoDup_cons in Hnd as [Hnotin Hnd]. csimpl.
  destruct (bool_decide (date r = d)) eqn:Ed; [|by apply IHr].
  apply bool_decide_eq_true_1 in Ed. subst d. csimpl.
  destruct (change_percent r) as [cp|] eqn:Ecp; csimpl; [reflexivity|].
  by rewrite no_record_of_date.
Qed.

(** When no stock has two records of one date, the stocks that contribute
    are those that have a record of the date with [change_percent]. *)
Lemma stated_contributions_unique_dates {num} `{JSNumber num}
    (st : list (string * list (TrendPoint num))) (d : string) :
  Forall (fun stock => NoDup (map (date (num:=num)) (snd stock))) st ->
  stated_contributions st d = contributions st d.
Proof.
  unfold stated_contributions, contributions.
  induction 1 as [|[code stockData] rest Hnd _ IH]; [reflexivity|].
  csimpl. rewrite IH. by rewrite defined_record_change_unique.
Qed.




(** C9.  In [updateIndustryChart], for an industry with trend data and a
    date of the displayed window for which no stock of the industry has a
    record with a defined [change_percent], the plotted value is the
    string "0". *)
Theorem C9_no_data_plots_zero_string {num} `{JSNumber num}
    (rand : nat -> num) (s : State num) (i j : nat) ind trend st d :
  canDrawLineChart s = true ->
  industriesToShow s !! i = Some ind ->
  allIndustryTrends s !! industry ind = Some trend ->
  stock_trends trend = Some st ->
  recentDates s !! j = Some d ->
  (forall code stockData item,
     (code, stockData) ∈ st -> item ∈ stockData -> date item = d ->
     change_percent item = None) ->
  exists o,
    shownLineChart (updateIndustryChart rand s) = Some o /\
    plotted o i j = Some "0".
Proof.
  intros Hdraw Hi Ht Hst Hj Hnone.
  destruct (plotted_real rand s i j _ _ _ _ Hdraw Hi Ht Hst Hj) as (o & Ho & Hp).
  exists o. split; [exact Ho|].
  rewrite Hp. f_equal. apply dateAverage_zero.
  by apply contributions_nil_of_no_defined_record.
Qed.

Lemma C9_no_data_plots_zero_string_witness :
  exists o,
    shownLineChart (updateIndustryChart Examples.noRandom Examples.twoIndustries)
    = Some o /\
    plotted o 0 0 = Some "0".
Proof.
  apply (C9_no_data_plots_zero_string Examples.noRandom Examples.twoIndustries
           0 0 Examples.bank Examples.bankTrend Examples.bankStocks "2025-01-01");
    [by_computation .. |].
  intros code stockData item Hst Hitem Hdate.
  unfold Examples.bankStocks in Hst.
  repeat (apply elem_of_cons in Hst as [Hst|Hst];
          [injection Hst as -> ->;
           repeat (apply elem_of_cons in Hitem as [->|Hitem];
                   [first [reflexivity | discriminate Hdate]|]);
           by apply elem_of_nil in Hitem|]).
  by apply elem_of_nil in Hst.
Defined.

(** ** Facts in exact arithmetic *)

Lemma Q_ltb_lt (a b : Q) : Q_ltb a b = true <-> (a < b)%Q.
Proof.
  unfold Q_ltb. rewrite Qlt_alt.
  destruct (a ?= b)%Q; split; congruence.
Qed.

Lemma Q_ltb_ge (a b : Q) : Q_ltb a b = false <-> (b <= a)%Q.
Proof.
  rewrite <- not_true_iff_false, Q_ltb_lt. split.
  - apply Qnot_lt_le.
  - apply Qle_not_lt.
Qed.

Lemma randomFactor_range (r : Q) :
  (0 <= r)%Q -> (r < 1)%Q ->
  (-1 <= randomFactor r)%Q /\ (randomFactor r < 1)%Q.
Proof.
  intros H0 H1. unfold randomFactor. simpl. split; lra.
Qed.

(** With ['top3'] an industry comes before the ones of smaller [avg_change];
    with any other filter, before the ones of larger [avg_change]. *)
Lemma not_after_top3 (a b : IndustrySummary Q) :
  not_after (comes_before "top3") a b <-> (avg_change b <= avg_change a)%Q.
Proof.
  unfold not_after, comes_before, filter_comparator.
  rewrite bool_decide_eq_true_2 by reflexivity. simpl.
  rewrite Q_ltb_ge. split; intros Hle; lra.
Qed.

Lemma not_after_bottom3 (a b : IndustrySummary Q) :
  not_after (comes_before "bottom3") a b <-> (avg_change a <= avg_change b)%Q.
Proof.
  unfold not_after, comes_before, filter_comparator.
  rewrite bool_decide_eq_false_2 by discriminate. simpl.
  rewrite Q_ltb_ge. split; intros Hle; lra.
Qed.

Lemma comes_before_asym (filter : string) (a b : IndustrySummary Q) :
  comes_before filter a b = true -> comes_before filter b a = false.
Proof.
  unfold comes_before, filter_comparator.
  destruct (bool_decide (filter = "top3")); simpl;
    rewrite Q_ltb_lt, Q_ltb_ge; intros Hlt; lra.
Qed.

Lemma not_after_comes_before_trans (filter : string) (a b c : IndustrySummary Q) :
  not_after (comes_before filter) a b ->
  not_after (comes_before filter) b c ->
  not_after (comes_before filter) a c.
Proof.
  unfold not_after, comes_before, filter_comparator.
  destruct (bool_decide (filter = "top3")); simpl;
    rewrite !Q_ltb_ge; intros H1 H2; lra.
Qed.

(** The first three of the sorted page and the rest of it. *)
Lemma first_three_of_sorted (filter : string) (page : list (IndustrySummary Q)) :
  let sorted := js_sort (comes_before filter) page in
  page ≡ₚ take 3 sorted ++ drop 3 sorted /\
  length (take 3 sorted) = Nat.min 3 (length page) /\
  forall c r, c ∈ take 3 sorted -> r ∈ drop 3 sorted ->
              not_after (comes_before filter) c r.
Proof.
  intros sorted. split; [|split].
  - rewrite take_drop. symmetry. apply js_sort_perm.
  - rewrite length_take. unfold sorted. by rewrite js_sort_length.
  - apply sorted_take_drop. apply js_sort_sorted.
    + apply comes_before_asym.
    + apply not_after_comes_before_trans.
Qed.

(** C2.  With the filter ['top3'] (['bottom3']) the industries charted by
    [updateIndustryChart] are the first three of the current page sorted by
    [avg_change], the highest (lowest) first: three of them when the page
    has that many, none of them with a lower (higher) [avg_change] than an
    industry left out; with ['all'] every industry of the page is charted. *)
Theorem C2_charted_industries (rand : nat -> Q) (s : State Q) :
  canDrawLineChart s = true ->
  exists o,
    shownLineChart (updateIndustryChart rand s) = Some o /\
    map series_name (chart_series o) = map (industry (num:=Q)) (industriesToShow s) /\
    (industryFilter s = "all" -> industriesToShow s = industryAnalysis s) /\
    (industryFilter s = "top3" ->
       industriesToShow s
       = take 3 (js_sort (comes_before "top3") (industryAnalysis s)) /\
       length (industriesToShow s) = Nat.min 3 (length (industryAnalysis s)) /\
       exists rest,
         industryAnalysis s ≡ₚ industriesToShow s ++ rest /\
         forall c r, c ∈ industriesToShow s -> r ∈ rest ->
                     (avg_change r <= avg_change c)%Q) /\
    (industryFilter s = "bottom3" ->
       industriesToShow s
       = take 3 (js_sort (comes_before "bottom3") (industryAnalysis s)) /\
       length (industriesToShow s) = Nat.min 3 (length (industryAnalysis s)) /\
       exists rest,
         industryAnalysis s ≡ₚ industriesToShow s ++ rest /\
         forall c r, c ∈ industriesToShow s -> r ∈ rest ->
                     (avg_change c <= avg_change r)%Q).
Proof.
  intros Hdraw. exists (lineChartOption rand s).
  split; [by apply updateIndustryChart_draws|].
  split; [apply buildSeries_names|].
  unfold industriesToShow. split; [|split]; intros ->.
  - reflexivity.
  - change (is_top_or_bottom "top3") with true. cbv iota.
    destruct (first_three_of_sorted "top3" (industryAnalysis s)) as (Hp & Hl & Hd).
    split; [reflexivity|]. split; [exact Hl|].
    eexists. split; [exact Hp|].
    intros c r Hc Hr. apply not_after_top3. by apply Hd.
  - change (is_top_or_bottom "bottom3") with true. cbv iota.
    destruct (first_three_of_sorted "bottom3" (industryAnalysis s)) as (Hp & Hl & Hd).
    split; [reflexivity|]. split; [exact Hl|].
    eexists. split; [exact Hp|].
    intros c r Hc Hr. apply not_after_bottom3. by apply Hd.
Qed.

Lemma C2_charted_industries_witness :
  exists o,
    shownLineChart (updateIndustryChart Examples.noRandom Examples.fourIndustries)
    = Some o /\
    map series_name (chart_series o) = ["银行"; "医药生物"; "电子"].
Proof.
  destruct (C2_charted_industries Examples.noRandom Examples.fourIndustries)
    as (o & Ho & Hnames & _); [by_computation|].
  exists o. split; [exact Ho|].
  rewrite Hnames. by_computation.
Defined.

(** C10 (amended).  For an industry shown on the line chart that has no
    entry in [allIndustryTrends], each plotted point is [toFixed(2)] of
    [avg_change * 100] plus the offset [(r - 0.5) * 2] for a value [r]
    returned by [Math.random()]; for [r] from 0 (included) to 1 (excluded)
    the offset lies from -1 (included, reached at [r = 0]) to 1 (excluded).
    Two evaluations of [updateIndustryChart] on the same state can give
    different series. *)
Theorem C10_mock_series_random :
  (forall (rand : nat -> Q) (s : State Q) (i j : nat) ind d,
     canDrawLineChart s = true ->
     industriesToShow s !! i = Some ind ->
     allIndustryTrends s !! industry ind = None ->
     recentDates s !! j = Some d ->
     exists o n,
       shownLineChart (updateIndustryChart rand s) = Some o /\
       plotted o i j =
       Some (toFixed2 (nadd (nmul (avg_change ind) (nlit 100))
                            (randomFactor (rand n)))) /\
       ((0 <= rand n)%Q -> (rand n < 1)%Q ->
        (-1 <= randomFactor (rand n))%Q /\ (randomFactor (rand n) < 1)%Q)) /\
  (randomFactor 0%Q == -1)%Q /\
  (exists (s : State Q) (rand1 rand2 : nat -> Q),
     (forall n, (0 <= rand1 n)%Q /\ (rand1 n < 1)%Q) /\
     (forall n, (0 <= rand2 n)%Q /\ (rand2 n < 1)%Q) /\
     shownLineChart (updateIndustryChart rand1 s)
     <> shownLineChart (updateIndustryChart rand2 s)).
Proof.
  split; [|split].
  - intros rand s i j ind d Hdraw Hi Hnone Hj.
    destruct (plotted_mock rand s i j _ _ Hdraw Hi Hnone Hj) as (o & n & Ho & Hp).
    exists o, n. split; [exact Ho|]. split; [exact Hp|].
    apply randomFactor_range.
  - reflexivity.
  - exists Examples.twoIndustries, Examples.noRandom, Examples.someRandom.
    split; [|split].
    + intros n. unfold Examples.noRandom. split; [apply Qle_refl|reflexivity].
    + intros n. unfold Examples.someRandom. split; [discriminate|reflexivity].
    + vm_compute. discriminate.
Qed.

Lemma C10_mock_series_random_witness :
  exists o n,
    shownLineChart (updateIndustryChart Examples.someRandom Examples.twoIndustries)
    = Some o /\
    plotted o 1 0
    = Some (toFixed2 (nadd (nmul (avg_change Examples.electronics) (nlit 100))
                           (randomFactor (Examples.someRandom n)))) /\
    plotted o 1 0 = Some "10.50".
Proof.
  destruct C10_mock_series_random as (Hpoint & _ & _).
  destruct (Hpoint Examples.someRandom Examples.twoIndustries 1%nat 0%nat
              Examples.electronics "2025-01-01") as (o & n & Ho & Hp & _);
    [by_computation ..|].
  exists o, n. split; [exact Ho|]. split; [exact Hp|].
  rewrite Hp. by_computation.
Defined.

(** The claim as worded fails for the value 0 of [Math.random()]: the
    offset is then -1, which is not strictly above -1. *)
Lemma C10_counterexample : ~ C10_as_stated.
Proof.
  intros Hclaim.
  destruct (Hclaim Examples.noRandom Examples.twoIndustries 1%nat 0%nat
              Examples.electronics "2025-01-01")
    as (o & n & _ & _ & Hlow & _).
  - intros n. unfold Examples.noRandom. split; [apply Qle_refl|reflexivity].
  - by_computation.
  - by_computation.
  - by_computation.
  - by_computation.
  - vm_compute in Hlow. discriminate.
Qed.

(** ** The treemap *)

Section HotmapFacts.

Context {num : Type} {JN : JSNumber num}.

Lemma convertData_visual (l : list (HotmapNode num)) :
  Forall (node_visual_ok (num:=num)) (convertData l).
Proof.
  unfold convertData. apply Forall_fmap, Forall_true.
  intros node. split; [reflexivity|].
  simpl. apply Forall_fmap, Forall_true. intros child. reflexivity.
Qed.

(** [convertData] keeps every node and every stock, with its name and
    indices 0 to 2 of its [value], and fills index 3. *)
Lemma convertData_visual_of (l : list (HotmapNode num)) :
  Forall2 (node_visual_of (num:=num)) l (convertData l).
Proof.
  unfold convertData.
  induction l as [|node rest IH]; simpl; constructor; [|exact IH].
  split; [reflexivity|]. split; [reflexivity|]. split; [by repeat split|]. simpl.
  induction (node_children node) as [|child cs IHc]; simpl; constructor;
    [|exact IHc].
  split; [reflexivity|by repeat split].
Qed.

(** The data chosen for the treemap is never empty. *)
Lemma finalDataOf_nonempty (resp : response (HierarchyBody num)) :
  finalDataOf resp <> [].
Proof.
  unfold finalDataOf.
  destruct (convertApiDataToChartFormat _) as [|node rest]; simpl; discriminate.
Qed.

Lemma updateHotmapChart_shows (resp : response (HierarchyBody num)) (s : State num) :
  marketHotmapRef s = true ->
  shownHotmap (fst (updateHotmapChart resp s)) = Some (convertData (finalDataOf resp)) /\
  snd (updateHotmapChart resp s) = [ReqStockHierarchy] /\
  error (fst (updateHotmapChart resp s)) = error s /\
  industryAnalysisResult (fst (updateHotmapChart resp s)) = industryAnalysisResult s /\
  hotmapLoading (fst (updateHotmapChart resp s)) = false.
Proof.
  intros Href. unfold updateHotmapChart, finalDataOf, shownHotmap.
  destruct (marketHotmapChart s) as [chart|] eqn:Ec; rewrite Href; simpl.
  - rewrite Ec, Href. repeat split.
  - rewrite Href. repeat split.
Qed.

Lemma finalDataOf_failed (resp : response (HierarchyBody num)) :
  failed resp -> finalDataOf resp = mockData.
Proof.
  intros [m Hm]. unfold finalDataOf.
  destruct resp; try reflexivity. discriminate.
Qed.

Lemma finalDataOf_empty (resp : response (HierarchyBody num)) :
  convertApiDataToChartFormat (fst (getIndustryStockHierarchy resp)) = [] ->
  finalDataOf resp = mockData.
Proof. intros He. unfold finalDataOf. by rewrite He. Qed.

End HotmapFacts.

(** C3.  The treemap is given one node for each node of the data chosen
    for it (the converted API data, or the static data), in order, and one
    stock for each of its stocks; the list is never empty.  Every node,
    industry or stock, keeps its name (an industry also its stock count)
    and indices 0 to 2 of its [value] array, and has at index 3 the value at index 2 multiplied by 10: the
    array then has the four entries. *)
Theorem C3_visual_value {num} `{JSNumber num}
    (resp : response (HierarchyBody num)) (s : State num) :
  marketHotmapRef s = true ->
  exists data,
    shownHotmap (fst (updateHotmapChart resp s)) = Some data /\
    data <> [] /\
    Forall2 (node_visual_of (num:=num)) (finalDataOf resp) data /\
    Forall (fun node =>
              value_3 (node_value node)
              = Some (nmul (value_2 (node_value node)) (nlit 10)) /\
              Forall (fun child =>
                        value_3 (stock_node_value child)
                        = Some (nmul (value_2 (stock_node_value child)) (nlit 10)))
                     (node_children node))
           data.
Proof.
  intros Href.
  destruct (updateHotmapChart_shows resp s Href) as (Hshown & _).
  pose proof (convertData_visual_of (finalDataOf resp)) as Hrel.
  eexists. split; [exact Hshown|]. split; [|split].
  - intros He. rewrite He in Hrel. apply Forall2_nil_inv_r in Hrel.
    by apply (finalDataOf_nonempty resp).
  - exact Hrel.
  - apply convertData_visual.
Qed.

(** The hierarchy endpoint sends 银行 with the [value] array
    [[90000, 2, 0.4]] and two stocks: the treemap gets the node 银行 with its
    two stocks, in order, the stocks with 12 and 8 at index 3. *)
Lemma C3_visual_value_witness :
  exists data,
    shownHotmap (fst (updateHotmapChart (JsonBody (HArray [MoreExamples.apiBank]))
                        Examples.mountedState))
    = Some data /\
    map (node_name (num:=Q)) data = ["银行"] /\
    map (fun node => map (stock_node_name (num:=Q)) (node_children node)) data
    = [["平安银行"; "招商银行"]] /\
    map (fun node =>
           map (fun child => toFixed2 <$> value_3 (stock_node_value child))
               (node_children node)) data
    = [[Some "12.00"; Some "8.00"]] /\
    Forall2 (node_visual_of (num:=Q))
            (finalDataOf (JsonBody (HArray [MoreExamples.apiBank]))) data.
Proof.
  destruct (C3_visual_value (JsonBody (HArray [MoreExamples.apiBank]))
              Examples.mountedState) as (data & Hshown & _ & Hrel & _);
    [reflexivity|].
  exists data. split; [exact Hshown|].
  rewrite (proj1 (updateHotmapChart_shows _ Examples.mountedState eq_refl)) in Hshown.
  injection Hshown as <-.
  split; [by_computation|]. split; [by_computation|]. split; [by_computation|].
  exact Hrel.
Defined.

(** C4.  When the hierarchy request fails (a response that is not ok, or
    an error thrown on the way) or the converted data is the empty list,
    [updateHotmapChart] gives the treemap the embedded static data: the
    industries 银行, 医药生物 and 电子, three stocks each. *)
Theorem C4_fallback_to_mock {num} `{JSNumber num}
    (resp : response (HierarchyBody num)) (s : State num) :
  marketHotmapRef s = true ->
  failed resp \/
  convertApiDataToChartFormat (fst (getIndustryStockHierarchy resp)) = [] ->
  shownHotmap (fst (updateHotmapChart resp s)) = Some (convertData mockData) /\
  map (node_name (num:=num)) (convertData mockData) = ["银行"; "医药生物"; "电子"] /\
  Forall (fun node => length (node_children node) = 3%nat)
         (convertData (mockData (num:=num))).
Proof.
  intros Href Hfail.
  destruct (updateHotmapChart_shows resp s Href) as (Hshown & _).
  split; [|split].
  - rewrite Hshown. f_equal. f_equal.
    destruct Hfail; [by apply finalDataOf_failed|by apply finalDataOf_empty].
  - reflexivity.
  - repeat constructor.
Qed.

Lemma C4_fallback_to_mock_witness :
  shownHotmap (fst (updateHotmapChart (HttpError 500) Examples.mountedState))
  = Some (convertData mockData).
Proof.
  apply (C4_fallback_to_mock (HttpError 500) Examples.mountedState).
  - by_computation.
  - left. by eexists.
Defined.

(** ** The fetch handlers *)

Section HandlerFacts.

Context {num : Type} {JN : JSNumber num}.

Lemma trendDelivered_value (r : response (IndustryTrend num)) :
  trendDelivered r <-> exists t st, trendValue r = Some t /\ stock_trends t = Some st.
Proof.
  unfold trendDelivered. split.
  - intros (t & st & -> & Hst). by exists t, st.
  - intros (t & st & Hv & Hst). destruct r; try discriminate.
    injection Hv as ->. by exists t, st.
Qed.

(** When no body fails to parse, the join gives one value per request. *)
Lemma promise_all_settled {A} (l : list A) :
  forall g : nat -> response (IndustryTrend num),
    (forall i m, (i < length l)%nat -> g i <> JsonRejected m) ->
    promise_all (imap (fun i _ => trendPromise (g i)) l)
    = inl (imap (fun i _ => trendValue (g i)) l).
Proof.
  induction l as [|x xs IH]; intros g Hg; [reflexivity|].
  rewrite !imap_cons. simpl.
  specialize (IH (g ∘ S)). unfold compose in *.
  rewrite IH.
  - destruct (g 0%nat) eqn:E; try reflexivity.
    exfalso. apply (Hg 0%nat message); [simpl; lia|exact E].
  - intros i m Hi. apply Hg. simpl. lia.
Qed.

(** When a body fails to parse, the join rejects. *)
Lemma promise_all_rejected {A} (l : list A) :
  forall (g : nat -> response (IndustryTrend num)) i m,
    (i < length l)%nat -> g i = JsonRejected m ->
    exists m', promise_all (imap (fun i _ => trendPromise (g i)) l) = inr m'.
Proof.
  induction l as [|x xs IH]; intros g i m Hi Hg; [simpl in Hi; lia|].
  rewrite imap_cons. simpl.
  destruct i as [|i].
  - rewrite Hg. simpl. by eexists.
  - destruct (IH (g ∘ S) i m) as [m' Hm']; [simpl in Hi; lia|exact Hg|].
    unfold compose in *. rewrite Hm'.
    destruct (trendPromise (g 0%nat)); by eexists.
Qed.

(** The entries of the map built from the settled values. *)
Lemma collectTrends_lookup (items : list (IndustrySummary num)) :
  forall (g : nat -> response (IndustryTrend num)) acc name,
    let industries := map (industry (num:=num)) items in
    let result :=
      collectTrends industries (imap (fun i _ => trendValue (g i)) industries) acc in
    (is_Some (result !! name) <->
     is_Some (acc !! name) \/
     exists i item, items !! i = Some item /\ industry item = name /\
                    trendDelivered (g i)) /\
    (forall t, result !! name = Some t ->
               acc !! name = Some t \/ trend_industry t = name).
Proof.
  induction items as [|x xs IH]; intros g acc name industries result.
  - subst industries result. simpl. split.
    + split; [by left|]. intros [?|(i & item & Hi & _)]; [done|discriminate].
    + intros t; by left.
  - subst industries result.
    change (map (industry (num:=num)) (x :: xs))
      with (industry x :: map (industry (num:=num)) xs).
    rewrite imap_cons. simpl.
    specialize (IH (g ∘ S)). unfold compose in IH.
    set (acc' := match trendValue (g 0%nat) with
                 | Some t =>
                     match stock_trends t with
                     | Some st =>
                         <[ industry x := {| trend_industry := industry x;
                                              trend_stock_count := trend_stock_count t;
                                              stock_trends := Some st |} ]> acc
                     | None => acc
                     end
                 | None => acc
                 end).
    destruct (IH acc' name) as [IH1 IH2]. clear IH.
    assert (is_Some (acc' !! name) <->
            is_Some (acc !! name) \/ (industry x = name /\ trendDelivered (g 0%nat)))
      as Hacc.
    { rewrite trendDelivered_value. subst acc'.
      destruct (trendValue (g 0%nat)) as [t|]; [destruct (stock_trends t) as [st|] eqn:Est|].
      - rewrite lookup_insert_is_Some. split.
        + intros [Heq|[_ Hs]]; [right|by left]. split; [done|]. by exists t, st.
        + intros [Hs|[Heq _]]; [|by left].
          destruct (decide (industry x = name)); [by left|by right].
      - split; [by left|]. intros [?|[_ (t' & st' & Ht' & Hst')]]; [done|].
        injection Ht' as <-. congruence.
      - split; [by left|]. intros [?|[_ (t' & st' & Ht' & _)]]; [done|discriminate]. }
    split.
    + rewrite IH1, Hacc. split.
      * intros [[?|[Hn Hd]]|(i & item & Hi & Hn & Hd)].
        -- by left.
        -- right. by exists 0%nat, x.
        -- right. by exists (S i), item.
      * intros [?|(i & item & Hi & Hn & Hd)]; [by left; left|].
        destruct i as [|i].
        -- injection Hi as ->. left; right. done.
        -- right. by exists i, item.
    + intros t Ht. destruct (IH2 t Ht) as [Hacc'|?]; [|by right].
      subst acc'.
      destruct (trendValue (g 0%nat)) as [t0|]; [destruct (stock_trends t0) as [st|]|];
        try by left.
      destruct (decide (industry x = name)) as [Heq|Hne].
      * rewrite Heq, lookup_insert_eq in Hacc'. injection Hacc' as <-. by right.
      * rewrite lookup_insert_ne in Hacc' by done. by left.
Qed.

Lemma getAllIndustryTrends_industryAnalysis fetchTrend (s : State num) :
  industryAnalysis (fst (getAllIndustryTrends fetchTrend s)) = industryAnalysis s.
Proof.
  unfold getAllIndustryTrends. simpl.
  destruct (0 <? length (industryAnalysis s))%nat; [|reflexivity].
  destruct (promise_all _); reflexivity.
Qed.

Lemma getAllIndustryTrends_joined fetchTrend (s : State num) :
  industryAnalysis s <> [] ->
  (forall i m, (i < length (industryAnalysis s))%nat -> fetchTrend i <> JsonRejected m) ->
  getAllIndustryTrends fetchTrend s
  = (set_loading false
       (set_allIndustryTrends
          (collectTrends (map (industry (num:=num)) (industryAnalysis s))
             (imap (fun i _ => trendValue (fetchTrend i))
                   (map (industry (num:=num)) (industryAnalysis s))) ∅)
          (set_error None (set_loading true s))),
     trendRequests s).
Proof.
  intros Hne Hok. unfold getAllIndustryTrends. simpl.
  destruct (0 <? length (industryAnalysis s))%nat eqn:El.
  - rewrite promise_all_settled
      by (intros i m Hi; apply Hok; by rewrite length_map in Hi).
    reflexivity.
  - apply Nat.ltb_ge in El. destruct (industryAnalysis s); [done|simpl in El; lia].
Qed.

(** Without a body that fails to parse, on a page that is not empty, the
    map is as claim C6 describes it, one request was issued per industry and
    no message is set. *)
Lemma getAllIndustryTrends_settled_map fetchTrend (s : State num) :
  industryAnalysis s <> [] ->
  (forall i m, (i < length (industryAnalysis s))%nat -> fetchTrend i <> JsonRejected m) ->
  C6_map_as_stated fetchTrend s (fst (getAllIndustryTrends fetchTrend s)) /\
  snd (getAllIndustryTrends fetchTrend s) = trendRequests s /\
  error (fst (getAllIndustryTrends fetchTrend s)) = None /\
  industryAnalysisResult (fst (getAllIndustryTrends fetchTrend s))
  = industryAnalysisResult s.
Proof.
  intros Hne Hok. rewrite getAllIndustryTrends_joined by done.
  simpl. split; [|done].
  intros name.
  destruct (collectTrends_lookup (industryAnalysis s) fetchTrend ∅ name) as [H1 H2].
  split.
  - rewrite H1. rewrite lookup_empty. split.
    + intros [[? ?]|?]; [discriminate|done].
    + intros ?; by right.
  - intros t Ht. destruct (H2 t Ht) as [Hempty|?]; [|done].
    by rewrite lookup_empty in Hempty.
Qed.

(** With a body that fails to parse, no trend is stored. *)
Lemma getAllIndustryTrends_unparsed_body fetchTrend (s : State num) i m :
  (i < length (industryAnalysis s))%nat ->
  fetchTrend i = JsonRejected m ->
  allIndustryTrends (fst (getAllIndustryTrends fetchTrend s)) = allIndustryTrends s /\
  is_Some (error (fst (getAllIndustryTrends fetchTrend s))).
Proof.
  intros Hi Hrej. unfold getAllIndustryTrends. simpl.
  destruct (0 <? length (industryAnalysis s))%nat eqn:El;
    [|apply Nat.ltb_ge in El; lia].
  destruct (promise_all_rejected (map (industry (num:=num)) (industryAnalysis s))
              fetchTrend i m) as [m' ->]; [by rewrite length_map|exact Hrej|].
  simpl. split; [reflexivity|by eexists].
Qed.

End HandlerFacts.




(** C6, at the failing input.  On a page of two industries whose first
    trend request is answered with an ok status and a body that does not
    parse, and whose second is answered with the trend of 银行,
    [getAllIndustryTrends] stores no trend at all and sets [error]: the map
    is not the one of the claim, which holds 银行. *)
Theorem C6_unparsed_body_at_failing_input :
  let s' := fst (getAllIndustryTrends Examples.oneBadBody Examples.freshPage) in
  allIndustryTrends s' = ∅ /\
  error s' = Some "获取行业趋势数据失败: Unexpected token < in JSON at position 0" /\
  trendDelivered (Examples.oneBadBody 1) /\
  ~ C6_map_as_stated Examples.oneBadBody Examples.freshPage s'.
Proof.
  assert (trendDelivered (Examples.oneBadBody 1)) as Hdelivered
    by (by exists Examples.bankTrend, Examples.bankStocks).
  split; [by_computation|]. split; [by_computation|]. split; [exact Hdelivered|].
  intros Hclaim. destruct (Hclaim "银行") as [Hiff _].
  destruct Hiff as [_ Hback].
  destruct Hback as [t Ht].
  - by exists 1%nat, Examples.bank.
  - vm_compute in Ht. discriminate.
Qed.

(** C7.  When the industry-analysis endpoint answers with an object whose
    [data] is an array, [industryAnalysis] is that array, element for
    element, and [totalIndustries] is the [total] of the response; when
    [data] is not an array, [industryAnalysis] is the empty list.  The
    trend requests and chart updates that follow leave the rows alone. *)
Theorem C7_analysis_page_stored {num} `{JSNumber num}
    (s : State num) (rows : option (list (IndustrySummary num)))
    (total : option num) :
  let body := {| page_data := rows; page_total := total |} in
  let s' := fst (getIndustryAnalysis (JsonBody body) s) in
  (forall l, rows = Some l ->
             industryAnalysis s' = l /\
             length (industryAnalysis s') = length l) /\
  (rows = None -> industryAnalysis s' = []) /\
  totalIndustries s' = num_or total (nlit 0) /\
  (forall t, total = Some t -> ntruthy t = true -> totalIndustries s' = t) /\
  error s' = None /\
  (forall rand1 rand2 fetchTrend,
     industryAnalysis
       (fst (getIndustryAnalysis_settled rand1 rand2 (JsonBody body) fetchTrend s))
     = default [] rows).
Proof.
  intros body s'. subst body s'. unfold getIndustryAnalysis. simpl.
  destruct (0 <? length (default [] rows))%nat eqn:El; simpl.
  - split; [by intros l ->|]. split; [by intros ->|]. split; [reflexivity|].
    split; [intros t -> Ht; unfold num_or; by rewrite Ht|]. split; [reflexivity|].
    intros rand1 rand2 fetchTrend. unfold getIndustryAnalysis_settled.
    unfold getIndustryAnalysis. simpl. rewrite El.
    rewrite updateIndustryChart_industryAnalysis. simpl. rewrite El.
    unfold getAllIndustryTrends_settled.
    destruct (getAllIndustryTrends fetchTrend _) as [s1 log] eqn:Eg.
    assert (industryAnalysis s1 = default [] rows) as Hs1.
    { change s1 with (fst (s1, log)). rewrite <- Eg.
      rewrite getAllIndustryTrends_industryAnalysis.
      by rewrite updateIndustryChart_industryAnalysis. }
    simpl. destruct (trendsJoined _ _); [|exact Hs1].
    by rewrite updateIndustryChart_industryAnalysis.
  - split; [by intros l ->|]. split; [by intros ->|]. split; [reflexivity|].
    split; [intros t -> Ht; unfold num_or; by rewrite Ht|]. split; [reflexivity|].
    intros rand1 rand2 fetchTrend. unfold getIndustryAnalysis_settled.
    unfold getIndustryAnalysis. simpl. rewrite El.
    rewrite updateIndustryChart_industryAnalysis. simpl. rewrite El. simpl.
    by rewrite updateIndustryChart_industryAnalysis.
Qed.

Lemma C7_analysis_page_stored_witness :
  let s' := fst (getIndustryAnalysis
                   (JsonBody {| page_data := Some [Examples.bank; Examples.pharma];
                                page_total := Some 31%Q |})
                   Examples.mountedState) in
  industryAnalysis s' = [Examples.bank; Examples.pharma] /\
  length (industryAnalysis s') = 2%nat /\
  totalIndustries s' = 31%Q.
Proof.
  destruct (C7_analysis_page_stored Examples.mountedState
              (Some [Examples.bank; Examples.pharma]) (Some 31%Q))
    as (Hrows & _ & _ & Htotal & _).
  destruct (Hrows _ eq_refl) as [Hl Hn].
  split; [exact Hl|]. split; [exact Hn|].
  apply Htotal; reflexivity.
Defined.

(** ** The local analysis *)

(** [positiveRate] is declared neither in [analyzeIndustry] nor at the top
    level of the script. *)
Lemma positiveRate_is_free :
  "positiveRate" ∉ (analyzeIndustry_locals ++ module_bindings)%list.
Proof.
  apply (bool_decide_unpack _). by_computation.
Qed.

(** C8.  For an industry whose trend data, with a [stock_trends] field, is
    in [allIndustryTrends], [analyzeIndustry] never stores a result of the
    analysis: building the result object evaluates the identifier
    [positiveRate], which is bound nowhere, so a [ReferenceError] is thrown,
    the [catch] clause stores [{industry, error: '分析行业失败'}], and
    [analysisLoading] is false afterwards. *)
Theorem C8_analyzeIndustry_never_succeeds {num} `{JSNumber num}
    (globalThis : gmap string (jsprim num)) (name : string) (s : State num)
    trend st :
  globalThis !! "positiveRate" = None ->
  allIndustryTrends s !! name = Some trend ->
  stock_trends trend = Some st ->
  ("positiveRate" ∉ (analyzeIndustry_locals ++ module_bindings)%list) /\
  analysisObject globalThis (daysToShow s) name st
  = Throw "ReferenceError" "positiveRate is not defined" /\
  industryAnalysisResult (analyzeIndustry globalThis name s)
  = Some (ResultError name "分析行业失败") /\
  analysisLoading (analyzeIndustry globalThis name s) = false.
Proof.
  intros Hfree Htrend Hst.
  assert (analysisObject globalThis (daysToShow s) name st
          = Throw "ReferenceError" "positiveRate is not defined") as Hthrow.
  { unfold analysisObject, free_identifier. by rewrite Hfree. }
  split; [exact positiveRate_is_free|]. split; [exact Hthrow|].
  unfold analyzeIndustry. simpl. rewrite Htrend. simpl. rewrite Hst.
  rewrite Hthrow. split; reflexivity.
Qed.

Lemma C8_analyzeIndustry_never_succeeds_witness :
  industryAnalysisResult (analyzeIndustry ∅ "银行" Examples.twoIndustries)
  = Some (ResultError "银行" "分析行业失败") /\
  analysisLoading (analyzeIndustry ∅ "银行" Examples.twoIndustries) = false.
Proof.
  destruct (C8_analyzeIndustry_never_succeeds
              (∅ : gmap string (jsprim Q)) "银行" Examples.twoIndustries
              Examples.bankTrend Examples.bankStocks)
    as (_ & _ & Hresult & Hloading); [by_computation ..|].
  split; [exact Hresult|exact Hloading].
Defined.

(** * Further properties of the page *)

(** ** The order of date strings *)

Lemma ascii_compare_refl (a : Ascii.ascii) : Ascii.compare a a = Eq.
Proof. unfold Ascii.compare. apply N.compare_refl. Qed.

Lemma ascii_compare_lt_trans (a b c : Ascii.ascii) :
  Ascii.compare a b = Lt -> Ascii.compare b c = Lt -> Ascii.compare a c = Lt.
Proof.
  unfold Ascii.compare. rewrite !N.compare_lt_iff. apply N.lt_trans.
Qed.

Lemma string_compare_refl (a : string) : String.compare a a = Eq.
Proof.
  induction a as [|x a IH]; [reflexivity|].
  simpl. by rewrite ascii_compare_refl.
Qed.

Lemma string_compare_lt_trans (a : string) :
  forall b c, String.compare a b = Lt -> String.compare b c = Lt ->
              String.compare a c = Lt.
Proof.
  induction a as [|x a IH]; intros [|y b] [|z c]; simpl; try done.
  destruct (Ascii.compare x y) eqn:Exy; try done;
    destruct (Ascii.compare y z) eqn:Eyz; try done.
  - apply Ascii.compare_eq_iff in Exy, Eyz. subst.
    rewrite ascii_compare_refl. apply IH.
  - apply Ascii.compare_eq_iff in Exy. subst. by rewrite Eyz.
  - apply Ascii.compare_eq_iff in Eyz. subst. by rewrite Exy.
  - by rewrite (ascii_compare_lt_trans x y z).
Qed.

Lemma string_ltb_asym (a b : string) :
  String.ltb a b = true -> String.ltb b a = false.
Proof.
  unfold String.ltb. rewrite (String.compare_antisym b a).
  by destruct (String.compare a b).
Qed.

Lemma string_not_after_trans (a b c : string) :
  not_after String.ltb a b -> not_after String.ltb b c -> not_after String.ltb a c.
Proof.
  unfold not_after, String.ltb. intros Hab Hbc.
  destruct (String.compare c a) eqn:Eca; try reflexivity.
  destruct (String.compare b a) eqn:Eba; try discriminate.
  - apply String.compare_eq_iff in Eba. subst. by rewrite Eca in Hbc.
  - destruct (String.compare c b) eqn:Ecb; try discriminate.
    + apply String.compare_eq_iff in Ecb. subst. congruence.
    + rewrite String.compare_antisym in Ecb, Eba.
      destruct (String.compare b c) eqn:Ebc; try discriminate.
      destruct (String.compare a b) eqn:Eab; try discriminate.
      pose proof (string_compare_lt_trans a b c Eab Ebc) as Hac.
      rewrite String.compare_antisym, Hac in Eca. discriminate.
Qed.

Lemma string_not_after_strict (a b : string) :
  not_after String.ltb a b -> a <> b -> before_date a b.
Proof.
  unfold not_after, before_date, String.ltb. intros Hba Hne.
  rewrite String.compare_antisym in Hba.
  destruct (String.compare a b) eqn:Eab; try done.
  by apply String.compare_eq_iff in Eab.
Qed.

(** A list without repetition that the sort has ordered is strictly
    increasing. *)
Lemma sorted_dates_strict (l : list string) :
  NoDup l -> StronglySorted (not_after String.ltb) l ->
  StronglySorted before_date l.
Proof.
  intros Hnd Hs. induction Hs as [|x xs Hs IH Hx]; [constructor|].
  apply NoDup_cons in Hnd as [Hnotin Hnd].
  constructor; [by apply IH|].
  rewrite Forall_forall in Hx. apply Forall_forall. intros y Hy.
  apply string_not_after_strict; [by apply Hx|].
  intros ->. done.
Qed.

Lemma StronglySorted_drop {A} (R : A -> A -> Prop) (l : list A) (n : nat) :
  StronglySorted R l -> StronglySorted R (drop n l).
Proof.
  intros Hs. revert n. induction Hs as [|x xs Hs IH Hx]; intros [|n]; simpl;
    try constructor; auto.
Qed.

(** ** The dates of the x axis *)

Section AxisFacts.

Context {num : Type} {JN : JSNumber num}.

Lemma set_add_elem (acc : list string) (x d : string) :
  d ∈ set_add acc x <-> d ∈ acc \/ d = x.
Proof.
  unfold set_add. case_bool_decide as Hin.
  - split; [by left|]. intros [?| ->]; done.
  - rewrite elem_of_app, list_elem_of_singleton. done.
Qed.

Lemma set_add_NoDup (acc : list string) (x : string) :
  NoDup acc -> NoDup (set_add acc x).
Proof.
  intros Hnd. unfold set_add. case_bool_decide as Hin; [done|].
  apply NoDup_app. split; [done|]. split.
  - intros y Hy Hx. apply list_elem_of_singleton in Hx. by subst.
  - apply NoDup_singleton.
Qed.

Lemma add_stock_dates_spec (stockData : list (TrendPoint num)) :
  forall acc,
    (NoDup acc -> NoDup (add_stock_dates acc stockData)) /\
    forall d, d ∈ add_stock_dates acc stockData <->
              d ∈ acc \/ (d <> "" /\ exists item, item ∈ stockData /\ date item = d).
Proof.
  unfold add_stock_dates.
  induction stockData as [|r rs IH]; intros acc; simpl.
  - split; [done|]. intros d. split; [by left|].
    intros [?|(_ & item & Hin & _)]; [done|]. by apply elem_of_nil in Hin.
  - case_bool_decide as Hempty.
    + destruct (IH acc) as [Hnd Hel]. split; [exact Hnd|].
      intros d. rewrite Hel. split.
      * intros [?|(Hne & item & Hin & Hd)]; [by left|].
        right. split; [done|]. exists item. split; [|done].
        apply elem_of_cons. by right.
      * intros [?|(Hne & item & Hin & Hd)]; [by left|].
        apply elem_of_cons in Hin as [->|Hin]; [congruence|].
        right. split; [done|]. by exists item.
    + destruct (IH (set_add acc (date r))) as [Hnd Hel]. split.
      * intros Hacc. by apply Hnd, set_add_NoDup.
      * intros d. rewrite Hel, set_add_elem. split.
        -- intros [[?| ->]|(Hne & item & Hin & Hd)].
           ++ by left.
           ++ right. split; [done|]. exists r. split; [|done].
              apply elem_of_cons. by left.
           ++ right. split; [done|]. exists item. split; [|done].
              apply elem_of_cons. by right.
        -- intros [?|(Hne & item & Hin & Hd)]; [by left; left|].
           apply elem_of_cons in Hin as [->|Hin]; [by left; right|].
           right. split; [done|]. by exists item.
Qed.

Lemma fold_add_stock_dates_spec (stocks : list (string * list (TrendPoint num))) :
  forall acc,
    (NoDup acc -> NoDup (fold_left (add_stock_dates (num:=num)) (map snd stocks) acc)) /\
    forall d, d ∈ fold_left (add_stock_dates (num:=num)) (map snd stocks) acc <->
              d ∈ acc \/
              (d <> "" /\ exists code stockData item,
                  (code, stockData) ∈ stocks /\ item ∈ stockData /\ date item = d).
Proof.
  induction stocks as [|[code sd] rest IH]; intros acc; simpl.
  - split; [done|]. intros d. split; [by left|].
    intros [?|(_ & c & sd & item & Hin & _)]; [done|]. by apply elem_of_nil in Hin.
  - destruct (IH (add_stock_dates acc sd)) as [Hnd Hel].
    destruct (add_stock_dates_spec sd acc) as [Hnd1 Hel1]. split.
    + intros Hacc. by apply Hnd, Hnd1.
    + intros d. rewrite Hel, Hel1. split.
      * intros [[?|(Hne & item & Hin & Hd)]|(Hne & c & sd' & item & Hin & Hi & Hd)].
        -- by left.
        -- right. split; [done|]. exists code, sd, item.
           split; [apply elem_of_cons; by left|done].
        -- right. split; [done|]. exists c, sd', item.
           split; [apply elem_of_cons; by right|done].
      * intros [?|(Hne & c & sd' & item & Hin & Hi & Hd)]; [by left; left|].
        apply elem_of_cons in Hin as [Heq|Hin].
        -- injection Heq as -> ->. left; right. split; [done|]. by exists item.
        -- right. split; [done|]. by exists c, sd', item.
Qed.

Lemma add_trend_dates_spec (trend : option (IndustryTrend num)) (acc : list string) :
  (NoDup acc -> NoDup (add_trend_dates acc trend)) /\
  forall d, d ∈ add_trend_dates acc trend <-> d ∈ acc \/ dateOfTrend trend d.
Proof.
  unfold add_trend_dates, dateOfTrend.
  destruct trend as [t|]; [destruct (stock_trends t) as [st|] eqn:Est|].
  - destruct (fold_add_stock_dates_spec st acc) as [Hnd Hel].
    split; [exact Hnd|]. intros d. rewrite Hel. split.
    + intros [?|(Hne & c & sd & item & Hin & Hi & Hd)]; [by left|].
      right. split; [done|]. by exists t, st, c, sd, item.
    + intros [?|(Hne & t' & st' & c & sd & item & Ht & Hst & Hin & Hi & Hd)];
        [by left|].
      injection Ht as <-. rewrite Est in Hst. injection Hst as <-.
      right. split; [done|]. by exists c, sd, item.
  - split; [done|]. intros d. split; [by left|].
    intros [?|(_ & t' & st' & c & sd & item & Ht & Hst & _)]; [done|].
    injection Ht as <-. congruence.
  - split; [done|]. intros d. split; [by left|].
    intros [?|(_ & t' & st' & c & sd & item & Ht & _)]; [done|discriminate].
Qed.

Lemma fold_add_trend_dates_spec (trends : gmap string (IndustryTrend num))
    (inds : list (IndustrySummary num)) :
  forall acc,
    let result :=
      fold_left (fun acc ind => add_trend_dates acc (trends !! industry ind)) inds acc in
    (NoDup acc -> NoDup result) /\
    forall d, d ∈ result <->
              d ∈ acc \/ exists ind, ind ∈ inds /\ dateOfTrend (trends !! industry ind) d.
Proof.
  induction inds as [|x xs IH]; intros acc; simpl.
  - split; [done|]. intros d. split; [by left|].
    intros [?|(ind & Hin & _)]; [done|]. by apply elem_of_nil in Hin.
  - destruct (IH (add_trend_dates acc (trends !! industry x))) as [Hnd Hel].
    destruct (add_trend_dates_spec (trends !! industry x) acc) as [Hnd1 Hel1].
    split.
    + intros Hacc. by apply Hnd, Hnd1.
    + intros d. rewrite Hel, Hel1. split.
      * intros [[?|Hd]|(ind & Hin & Hd)].
        -- by left.
        -- right. exists x. split; [apply elem_of_cons; by left|done].
        -- right. exists ind. split; [apply elem_of_cons; by right|done].
      * intros [?|(ind & Hin & Hd)]; [by left; left|].
        apply elem_of_cons in Hin as [->|Hin]; [by left; right|].
        right. by exists ind.
Qed.

Lemma allDataDates_spec (s : State num) :
  NoDup (allDataDates s) /\
  forall d, d ∈ allDataDates s <-> displayedDate s d.
Proof.
  unfold allDataDates, displayedDate.
  destruct (fold_add_trend_dates_spec (allIndustryTrends s) (industriesToShow s) [])
    as [Hnd Hel].
  split; [apply Hnd, NoDup_nil_2|].
  intros d. rewrite Hel. split; [|by right].
  intros [Hnil|?]; [|done]. by apply elem_of_nil in Hnil.
Qed.

Lemma sortedDates_spec (s : State num) :
  StronglySorted before_date (sortedDates s) /\
  forall d, d ∈ sortedDates s <-> displayedDate s d.
Proof.
  destruct (allDataDates_spec s) as [Hnd Hel]. unfold sortedDates. split.
  - apply sorted_dates_strict.
    + by rewrite js_sort_perm.
    + apply js_sort_sorted; [apply string_ltb_asym|apply string_not_after_trans].
  - intros d. by rewrite js_sort_perm.
Qed.

End AxisFacts.

(** ** The line chart as a whole *)

Section ChartFacts.

Context {num : Type} {JN : JSNumber num}.

Lemma state_eta (s : State num) : set_industryChart (industryChart s) s = s.
Proof. by destruct s. Qed.

(** [updateIndustryChart] either draws the option of the state or does
    nothing. *)
Lemma updateIndustryChart_cases (rand : nat -> num) (s : State num) :
  updateIndustryChart rand s
  = if canDrawLineChart s
    then set_industryChart
           (Some {| chart_option := Some (lineChartOption rand s) |}) s
    else s.
Proof.
  unfold updateIndustryChart, canDrawLineChart.
  destruct (length (industryAnalysis s) =? 0)%nat; simpl; [reflexivity|].
  destruct (industryChart s) as [chart|] eqn:Ec; simpl.
  - rewrite Ec. reflexivity.
  - destruct (industryChartRef s); simpl.
    + by rewrite lineChartOption_set_industryChart.
    + by rewrite Ec.
Qed.

Lemma color_of_palette (index : nat) : color_of index ∈ colors.
Proof.
  unfold color_of.
  destruct (colors !! (index mod length colors)%nat) as [c|] eqn:Ec; simpl.
  - by apply list_elem_of_lookup_2 in Ec.
  - apply lookup_ge_None in Ec.
    pose proof (Nat.mod_upper_bound index (length colors)) as Hlt.
    simpl in *. lia.
Qed.

Lemma buildSeries_shape (s : State num) (rand : nat -> num) (dates : list string) :
  forall inds index k,
    length (buildSeries s rand dates inds index k) = length inds /\
    Forall (fun sr => length (series_data sr) = length dates /\
                      series_color sr ∈ colors)
           (buildSeries s rand dates inds index k).
Proof.
  induction inds as [|x xs IH]; intros index k; simpl; [by split|].
  destruct (realTrendOf s x); simpl.
  - destruct (IH (S index) k) as [Hl Hf]. split; [by rewrite Hl|].
    constructor; [|exact Hf]. simpl. split; [apply length_map|apply color_of_palette].
  - destruct (IH (S index) (k + length dates)%nat) as [Hl Hf].
    split; [by rewrite Hl|].
    constructor; [|exact Hf]. simpl.
    split; [apply length_imap|apply color_of_palette].
Qed.

(** The series of industries with trend data draw no random value. *)
Lemma buildSeries_without_random (s : State num) (rand1 rand2 : nat -> num)
    (dates : list string) :
  forall inds index k1 k2,
    (forall ind, ind ∈ inds -> is_Some (realTrendOf s ind)) ->
    buildSeries s rand1 dates inds index k1 = buildSeries s rand2 dates inds index k2.
Proof.
  induction inds as [|x xs IH]; intros index k1 k2 Hreal; [reflexivity|].
  simpl. destruct (Hreal x) as [st Hst]; [apply elem_of_cons; by left|].
  rewrite Hst. f_equal. apply IH. intros ind Hin. apply Hreal.
  apply elem_of_cons. by right.
Qed.

End ChartFacts.

(** X1.  [updateIndustryChart] changes nothing but the line chart; it
    changes nothing at all when the page is empty, or when there is neither
    a chart nor a container to create one in. *)
Theorem updateIndustryChart_frame {num} `{JSNumber num}
    (rand : nat -> num) (s : State num) :
  sameButLineChart s (updateIndustryChart rand s) /\
  (industryAnalysis s = [] -> updateIndustryChart rand s = s) /\
  (industryChart s = None -> industryChartRef s = false ->
   updateIndustryChart rand s = s).
Proof.
  rewrite updateIndustryChart_cases. unfold sameButLineChart, canDrawLineChart.
  split; [|split].
  - destruct (_ && _); simpl; [reflexivity|]. symmetry. apply state_eta.
  - intros ->. reflexivity.
  - intros -> ->. rewrite bool_decide_eq_false_2 by (intros [? ?]; discriminate).
    by rewrite andb_false_r.
Qed.

Lemma updateIndustryChart_frame_witness :
  updateIndustryChart Examples.noRandom MoreExamples.unmountedState
  = MoreExamples.unmountedState.
Proof.
  destruct (updateIndustryChart_frame Examples.noRandom MoreExamples.unmountedState)
    as (_ & _ & Hnone).
  apply Hnone; reflexivity.
Defined.

(** X2.  When the chart is drawn it has one series per charted industry, in
    order: there are as many series as charted industries, and the series
    at position [k] has the name of the [k]-th charted industry and the
    colour at position [k] modulo 5 of the palette.  Every series has
    exactly one point per date of the x axis and a colour of the palette. *)
Theorem lineChart_shape {num} `{JSNumber num} (rand : nat -> num) (s : State num) :
  canDrawLineChart s = true ->
  exists o,
    shownLineChart (updateIndustryChart rand s) = Some o /\
    chart_dates o = recentDates s /\
    length (chart_series o) = length (industriesToShow s) /\
    map series_name (chart_series o)
    = map (industry (num:=num)) (industriesToShow s) /\
    (forall k ind, industriesToShow s !! k = Some ind ->
       exists sr, chart_series o !! k = Some sr /\
                  series_name sr = industry ind /\
                  series_color sr = color_of k) /\
    Forall (fun sr => length (series_data sr) = length (chart_dates o) /\
                      series_color sr ∈ colors)
           (chart_series o).
Proof.
  intros Hdraw. exists (lineChartOption rand s).
  split; [by apply updateIndustryChart_draws|]. split; [reflexivity|].
  unfold lineChartOption; simpl.
  split; [apply buildSeries_shape|]. split; [apply buildSeries_names|].
  split; [|apply buildSeries_shape].
  intros k ind Hk.
  destruct (buildSeries_lookup s rand (recentDates s) _ 0 0 _ _ Hk) as [k' Hk'].
  eexists. split; [exact Hk'|]. split; reflexivity.
Qed.

(** Of 电子 and 银行 the page charts 银行 first, in the first colour of the
    palette, then 电子 in the second; both series have the three dates. *)
Lemma lineChart_shape_witness :
  exists o,
    shownLineChart (updateIndustryChart Examples.someRandom Examples.twoIndustries)
    = Some o /\
    map series_name (chart_series o) = ["银行"; "电子"] /\
    map series_color (chart_series o) = take 2 colors /\
    Forall (fun sr => length (series_data sr) = 3%nat) (chart_series o).
Proof.
  destruct (lineChart_shape Examples.someRandom Examples.twoIndustries)
    as (o & Ho & Hdates & Hlen & Hnames & Hk & Hall); [by_computation|].
  exists o. split; [exact Ho|]. split; [rewrite Hnames; by_computation|]. split.
  - destruct (Hk 0%nat Examples.bank) as (sr0 & H0 & _ & Hc0); [by_computation|].
    destruct (Hk 1%nat Examples.electronics) as (sr1 & H1 & _ & Hc1);
      [by_computation|].
    assert (length (chart_series o) = 2%nat) as Hlen2
      by (rewrite Hlen; by_computation).
    destruct (chart_series o) as [|a [|b [|c rest]]]; try discriminate.
    simpl in H0, H1. injection H0 as ->. injection H1 as ->.
    simpl. rewrite Hc0, Hc1. reflexivity.
  - eapply Forall_impl; [exact Hall|].
    intros sr [Hsr _]. rewrite Hsr, Hdates. by_computation.
Defined.

(** X3.  The dates of the x axis are strictly increasing in the order of
    strings, so none is repeated, and each is the non-empty date of a record
    of a stock of a charted industry. *)
Theorem date_axis_increasing {num} `{JSNumber num} (rand : nat -> num) (s : State num) :
  canDrawLineChart s = true ->
  exists o,
    shownLineChart (updateIndustryChart rand s) = Some o /\
    StronglySorted before_date (chart_dates o) /\
    forall d, d ∈ chart_dates o -> displayedDate s d.
Proof.
  intros Hdraw. exists (lineChartOption rand s).
  split; [by apply updateIndustryChart_draws|].
  destruct (sortedDates_spec s) as [Hsorted Hel].
  simpl. unfold recentDates, js_slice_from. split.
  - by apply StronglySorted_drop.
  - intros d Hd. apply Hel. by apply (subseteq_drop _ _ _ Hd).
Qed.

Lemma date_axis_increasing_witness :
  exists o,
    shownLineChart (updateIndustryChart Examples.noRandom Examples.twoIndustries)
    = Some o /\
    StronglySorted before_date (chart_dates o) /\
    chart_dates o = ["2025-01-01"; "2025-01-02"; "2025-01-03"].
Proof.
  destruct (date_axis_increasing Examples.noRandom Examples.twoIndustries)
    as (o & Ho & Hsorted & _); [by_computation|].
  exists o. split; [exact Ho|]. split; [exact Hsorted|].
  rewrite updateIndustryChart_draws in Ho by by_computation.
  injection Ho as <-. by_computation.
Defined.

Lemma recentDates_positive {num} `{JSNumber num} (s : State num) :
  (0 < daysToShow s)%Z ->
  recentDates s
  = drop (length (sortedDates s) - Z.to_nat (daysToShow s)) (sortedDates s).
Proof.
  intros Hpos. unfold recentDates, js_slice_from.
  assert ((- daysToShow s <? 0)%Z = true) as -> by (apply Z.ltb_lt; lia).
  f_equal. lia.
Qed.

Lemma recentDates_length {num} `{JSNumber num} (s : State num) :
  (0 < daysToShow s)%Z ->
  length (recentDates s)
  = Nat.min (Z.to_nat (daysToShow s)) (length (sortedDates s)).
Proof.
  intros Hpos. rewrite recentDates_positive by exact Hpos.
  rewrite length_drop. lia.
Qed.

(** X4.  With a positive [daysToShow] the window is the last [daysToShow]
    of the sorted dates (all of them when there are fewer), and every date
    left out is before every date kept; with [daysToShow] 0 the window is
    all the dates, as [slice(-0)] is [slice(0)]. *)
Theorem date_window {num} `{JSNumber num} (s : State num) :
  let all := sortedDates s in
  let days := Z.to_nat (daysToShow s) in
  ((0 < daysToShow s)%Z ->
   recentDates s = drop (length all - days) all /\
   length (recentDates s) = Nat.min days (length all) /\
   forall a b, a ∈ take (length all - days) all -> b ∈ recentDates s ->
               before_date a b) /\
  (daysToShow s = 0%Z -> recentDates s = all).
Proof.
  intros all days. split.
  - intros Hpos.
    split; [exact (recentDates_positive s Hpos)|].
    split; [exact (recentDates_length s Hpos)|].
    rewrite (recentDates_positive s Hpos).
    apply sorted_take_drop. apply (sortedDates_spec s).
  - unfold recentDates, js_slice_from. fold all.
    intros ->. change (- 0 <? 0)%Z with false. cbv iota.
    assert (Z.to_nat (Z.min (- 0) (Z.of_nat (length all))) = 0%nat) as -> by lia.
    reflexivity.
Qed.

Lemma date_window_witness :
  recentDates (set_daysToShow 2 Examples.twoIndustries)
  = ["2025-01-02"; "2025-01-03"] /\
  recentDates (set_daysToShow 0 Examples.twoIndustries)
  = ["2025-01-01"; "2025-01-02"; "2025-01-03"].
Proof.
  split.
  - destruct (date_window (set_daysToShow 2 Examples.twoIndustries)) as [Hpos _].
    destruct Hpos as (-> & _); [reflexivity|]. by_computation.
  - destruct (date_window (set_daysToShow 0 Examples.twoIndustries)) as [_ Hzero].
    rewrite Hzero; [|reflexivity]. by_computation.
Defined.

(** X5.  When every charted industry has trend data, the chart does not
    depend on the values of [Math.random()], and drawing it again changes
    nothing. *)
Theorem lineChart_of_real_data_deterministic {num} `{JSNumber num}
    (rand1 rand2 : nat -> num) (s : State num) :
  (forall ind, ind ∈ industriesToShow s ->
     exists trend st, allIndustryTrends s !! industry ind = Some trend /\
                      stock_trends trend = Some st) ->
  updateIndustryChart rand1 s = updateIndustryChart rand2 s /\
  updateIndustryChart rand2 (updateIndustryChart rand1 s) = updateIndustryChart rand1 s.
Proof.
  intros Hreal.
  assert (forall r1 r2, lineChartOption r1 s = lineChartOption r2 s) as Hopt.
  { intros r1 r2. unfold lineChartOption. f_equal.
    apply buildSeries_without_random. intros ind Hin.
    destruct (Hreal ind Hin) as (trend & st & Ht & Hst).
    exists st. by apply realTrendOf_Some with trend. }
  split.
  - rewrite !updateIndustryChart_cases. by rewrite (Hopt rand1 rand2).
  - rewrite (updateIndustryChart_cases rand1 s).
    destruct (canDrawLineChart s) eqn:Hdraw.
    + rewrite updateIndustryChart_cases.
      assert (canDrawLineChart
                (set_industryChart
                   (Some {| chart_option := Some (lineChartOption rand1 s) |}) s)
              = true) as ->.
      { unfold canDrawLineChart in *.
        apply andb_true_iff in Hdraw as [Hlen _].
        apply andb_true_iff. split; [exact Hlen|].
        apply orb_true_iff. left. apply bool_decide_eq_true_2. by eexists. }
      rewrite lineChartOption_set_industryChart. by rewrite (Hopt rand2 rand1).
    + rewrite updateIndustryChart_cases. by rewrite Hdraw.
Qed.

Lemma lineChart_of_real_data_deterministic_witness :
  updateIndustryChart Examples.noRandom MoreExamples.onlyBank
  = updateIndustryChart Examples.someRandom MoreExamples.onlyBank.
Proof.
  apply (lineChart_of_real_data_deterministic Examples.noRandom Examples.someRandom
           MoreExamples.onlyBank).
  intros ind Hin.
  assert (ind = Examples.bank) as ->.
  { change (industriesToShow MoreExamples.onlyBank) with [Examples.bank] in Hin.
    by apply list_elem_of_singleton in Hin. }
  exists Examples.bankTrend, Examples.bankStocks. split; by_computation.
Defined.

(** X6.  [handleDaysChange] with a positive number of days redraws the
    chart with at most that many dates, and [handleIndustryFilterChange]
    with a value other than ['top3'] and ['bottom3'] charts the whole page;
    both leave the table rows and the trend data as they are. *)
Theorem chart_controls {num} `{JSNumber num} :
  (forall (rand : nat -> num) (value : Z) (s : State num),
     canDrawLineChart s = true -> (0 < value)%Z ->
     let s' := handleDaysChange rand value s in
     daysToShow s' = value /\
     industryAnalysis s' = industryAnalysis s /\
     allIndustryTrends s' = allIndustryTrends s /\
     exists o, shownLineChart s' = Some o /\
               (length (chart_dates o) <= Z.to_nat value)%nat) /\
  (forall (rand : nat -> num) (value : string) (s : State num),
     canDrawLineChart s = true -> value <> "top3" -> value <> "bottom3" ->
     let s' := handleIndustryFilterChange rand value s in
     industryFilter s' = value /\
     industryAnalysis s' = industryAnalysis s /\
     allIndustryTrends s' = allIndustryTrends s /\
     exists o, shownLineChart s' = Some o /\
               map series_name (chart_series o)
               = map (industry (num:=num)) (industryAnalysis s)).
Proof.
  split.
  - intros rand value s Hdraw Hpos s'. subst s'. unfold handleDaysChange.
    rewrite updateIndustryChart_cases.
    change (canDrawLineChart (set_daysToShow value s)) with (canDrawLineChart s).
    rewrite Hdraw. repeat split.
    eexists. split; [reflexivity|]. simpl.
    rewrite (recentDates_length (set_daysToShow value s)) by exact Hpos.
    simpl. lia.
  - intros rand value s Hdraw Htop Hbottom s'. subst s'.
    unfold handleIndustryFilterChange.
    rewrite updateIndustryChart_cases.
    change (canDrawLineChart (set_industryFilter value s)) with (canDrawLineChart s).
    rewrite Hdraw. repeat split.
    eexists. split; [reflexivity|]. simpl.
    rewrite buildSeries_names. unfold industriesToShow, is_top_or_bottom. simpl.
    by rewrite !bool_decide_eq_false_2.
Qed.

Lemma chart_controls_witness :
  exists o,
    shownLineChart (handleDaysChange Examples.noRandom 2 Examples.twoIndustries)
    = Some o /\
    (length (chart_dates o) <= 2)%nat.
Proof.
  destruct (@chart_controls Q QNum) as [Hdays _].
  destruct (Hdays Examples.noRandom 2%Z Examples.twoIndustries)
    as (_ & _ & _ & o & Ho & Hlen); [by_computation|reflexivity|].
  exists o. split; [exact Ho|exact Hlen].
Defined.

(** ** The local analysis as a whole *)

Section AnalysisFacts.

Context {num : Type} {JN : JSNumber num}.

Lemma analyzeDay_invariant st (acc : DailyAcc num) (d : string) :
  analysis_invariant st acc -> analysis_invariant st (analyzeDay st acc d).
Proof.
  intros [Hcount Hdays]. unfold analyzeDay.
  rewrite fold_add_stock_change. simpl.
  fold (contributions st d).
  destruct (contributions st d) as [|c cs] eqn:Ec; simpl; [by split|].
  split; simpl.
  - rewrite length_app. simpl.
    destruct (ngtb _ _); [lia|]. destruct (nltb _ _); lia.
  - apply Forall_app. split; [exact Hdays|].
    constructor; [|constructor]. simpl. rewrite Ec. split; [done|reflexivity].
Qed.

Lemma fold_analyzeDay_invariant st (dates : list string) :
  forall acc, analysis_invariant st acc ->
              analysis_invariant st (fold_left (analyzeDay st) dates acc).
Proof.
  induction dates as [|d ds IH]; intros acc Hacc; [exact Hacc|].
  simpl. by apply IH, analyzeDay_invariant.
Qed.

End AnalysisFacts.

(** X7.  While [positiveRate] is not defined on the global object,
    [analyzeIndustry] always ends with an error in [industryAnalysisResult]:
    "无法获取该行业的趋势数据" exactly when the industry has no trend data with
    [stock_trends], "分析行业失败" otherwise.  It sets [analyzingIndustry],
    leaves [analysisLoading] false and touches nothing else. *)
Theorem analyzeIndustry_always_error {num} `{JSNumber num}
    (globalThis : gmap string (jsprim num)) (name : string) (s : State num) :
  globalThis !! "positiveRate" = None ->
  let s' := analyzeIndustry globalThis name s in
  (exists m, industryAnalysisResult s' = Some (ResultError name m) /\
             (m = "无法获取该行业的趋势数据" \/ m = "分析行业失败")) /\
  (industryAnalysisResult s' = Some (ResultError name "无法获取该行业的趋势数据") <->
   allIndustryTrends s !! name ≫= stock_trends (num:=num) = None) /\
  analyzingIndustry s' = name /\
  analysisLoading s' = false /\
  sameButAnalysis s s'.
Proof.
  intros Hfree s'. subst s'. unfold analyzeIndustry, sameButAnalysis. simpl.
  destruct (allIndustryTrends s !! name ≫= stock_trends (num:=num)) as [st|] eqn:Et.
  - assert (analysisObject globalThis (daysToShow s) name st
            = Throw "ReferenceError" "positiveRate is not defined") as ->
      by (unfold analysisObject, free_identifier; by rewrite Hfree).
    simpl. split; [eexists; split; [reflexivity|by right]|].
    split; [split; intros Hr; discriminate Hr|]. repeat split.
  - simpl. split; [eexists; split; [reflexivity|by left]|].
    split; [done|]. repeat split.
Qed.

Lemma analyzeIndustry_always_error_witness :
  industryAnalysisResult (analyzeIndustry ∅ "电子" Examples.twoIndustries)
  = Some (ResultError "电子" "无法获取该行业的趋势数据").
Proof.
  destruct (analyzeIndustry_always_error
              (∅ : gmap string (jsprim Q)) "电子" Examples.twoIndustries)
    as (_ & Hiff & _); [by_computation|].
  apply Hiff. by_computation.
Defined.

(** X8.  When the result object of [analyzeIndustry] can be built, it
    counts the stocks of the trend; every entry of [dailyPerformance] is a
    date on which some stock contributes, with the mean of the
    contributions that the line chart prints for that date; and
    [positiveDays + negativeDays] is at most the number of entries. *)
Theorem analysisObject_consistent {num} `{JSNumber num}
    (globalThis : gmap string (jsprim num)) (days : Z) (name : string)
    (st : list (string * list (TrendPoint num))) (result : AnalysisResult num) :
  analysisObject globalThis days name st = Normal result ->
  exists r,
    result = ResultLocal name r /\
    res_stockCount r = length st /\
    (res_positiveDays r + res_negativeDays r <= length (res_dailyPerformance r))%nat /\
    Forall (fun day =>
              contributions st (perf_date day) <> [] /\
              perf_change day = mean (contributions st (perf_date day)) /\
              dateAverage st (perf_date day) = toFixed2 (perf_change day))
           (res_dailyPerformance r).
Proof.
  unfold analysisObject.
  destruct (free_identifier globalThis "positiveRate") as [pr|]; [|discriminate].
  intros Hr. injection Hr as <-. eexists. split; [reflexivity|]. simpl.
  split; [apply length_map|].
  match goal with
  | |- context [fold_left (analyzeDay st) ?dates ?acc0] =>
      destruct (fold_analyzeDay_invariant st dates acc0) as [Hcount Hdays]
  end.
  { split; [simpl; lia|constructor]. }
  split; [exact Hcount|].
  eapply Forall_impl; [exact Hdays|].
  intros day [Hne Hmean]. split; [exact Hne|]. split; [exact Hmean|].
  rewrite Hmean. by apply dateAverage_mean.
Qed.

Lemma analysisObject_consistent_witness :
  exists r,
    analysisObject MoreExamples.withPositiveRate 90 "银行" Examples.bankStocks
    = Normal (ResultLocal "银行" r) /\
    res_stockCount r = 2%nat /\
    (res_positiveDays r + res_negativeDays r <= length (res_dailyPerformance r))%nat.
Proof.
  destruct (analysisObject MoreExamples.withPositiveRate 90 "银行" Examples.bankStocks)
    as [result|] eqn:Eobj; [|vm_compute in Eobj; discriminate].
  destruct (analysisObject_consistent MoreExamples.withPositiveRate 90 "银行"
              Examples.bankStocks result Eobj) as (r & -> & Hn & Hcount & _).
  exists r. split; [reflexivity|]. split; [exact Hn|exact Hcount].
Defined.

(** ** The trend map and the requests of a page load *)

Section TrendFacts.

Context {num : Type} {JN : JSNumber num}.

(** Every entry of the map built from the settled values is an entry of the
    start map or the data of a parsed body, stored under the name of its
    row. *)
Lemma collectTrends_entries (items : list (IndustrySummary num)) :
  forall (g : nat -> response (IndustryTrend num)) acc name t,
    let industries := map (industry (num:=num)) items in
    collectTrends industries (imap (fun i _ => trendValue (g i)) industries) acc
      !! name = Some t ->
    acc !! name = Some t \/
    exists i item body st,
      items !! i = Some item /\ industry item = name /\
      g i = JsonBody body /\ stock_trends body = Some st /\
      t = {| trend_industry := name;
             trend_stock_count := trend_stock_count body;
             stock_trends := Some st |}.
Proof.
  induction items as [|x xs IH]; intros g acc name t industries Ht.
  - left. exact Ht.
  - subst industries.
    change (map (industry (num:=num)) (x :: xs))
      with (industry x :: map (industry (num:=num)) xs) in Ht.
    rewrite imap_cons in Ht. simpl in Ht.
    apply (IH (g ∘ S)) in Ht. unfold compose in Ht.
    destruct Ht as [Hacc|(i & item & body & st & Hi & Hn & Hg & Hst & ->)].
    + destruct (g 0%nat) as [| | |body] eqn:Eg; simpl in Hacc; try by left.
      destruct (stock_trends body) as [st|] eqn:Est; [|by left].
      destruct (decide (industry x = name)) as [Heq|Hne].
      * rewrite Heq, lookup_insert_eq in Hacc. injection Hacc as <-.
        right. exists 0%nat, x, body, st. by rewrite Heq.
      * rewrite lookup_insert_ne in Hacc by done. by left.
    + right. by exists (S i), item, body, st.
Qed.

Lemma trendsJoined_settled fetchTrend (s : State num) :
  industryAnalysis s <> [] ->
  (forall i m, (i < length (industryAnalysis s))%nat -> fetchTrend i <> JsonRejected m) ->
  trendsJoined fetchTrend s = true.
Proof.
  intros Hne Hok. unfold trendsJoined.
  rewrite promise_all_settled by done.
  destruct (industryAnalysis s); [done|reflexivity].
Qed.

Lemma trendsJoined_rejected fetchTrend (s : State num) i m :
  (i < length (industryAnalysis s))%nat -> fetchTrend i = JsonRejected m ->
  trendsJoined fetchTrend s = false.
Proof.
  intros Hi Hrej. unfold trendsJoined.
  destruct (promise_all_rejected (industryAnalysis s) fetchTrend i m Hi Hrej)
    as [m' ->].
  apply andb_false_r.
Qed.

End TrendFacts.

(** X9.  On a page that is not empty, when no trend body fails to parse,
    [getAllIndustryTrends] issues one request per row, in row order, and
    replaces [allIndustryTrends] by a map that has an entry exactly for the
    names of the rows whose request gave a body with [stock_trends]; every
    entry carries the stock data and stock count of such a body and the
    name of its row, so that every stored trend has [stock_trends]. *)
Theorem trends_map_rebuilt {num} `{JSNumber num}
    (fetchTrend : nat -> response (IndustryTrend num)) (s : State num) :
  industryAnalysis s <> [] ->
  (forall i m, (i < length (industryAnalysis s))%nat -> fetchTrend i <> JsonRejected m) ->
  let r := getAllIndustryTrends fetchTrend s in
  snd r = map (fun item => ReqIndustryTrend (industry item)) (industryAnalysis s) /\
  (forall name,
     is_Some (allIndustryTrends (fst r) !! name) <->
     exists i item, industryAnalysis s !! i = Some item /\ industry item = name /\
                    trendDelivered (fetchTrend i)) /\
  (forall name t,
     allIndustryTrends (fst r) !! name = Some t ->
     exists i item body st,
       industryAnalysis s !! i = Some item /\ industry item = name /\
       fetchTrend i = JsonBody body /\ stock_trends body = Some st /\
       t = {| trend_industry := name;
              trend_stock_count := trend_stock_count body;
              stock_trends := Some st |}).
Proof.
  intros Hne Hok r. subst r.
  destruct (getAllIndustryTrends_settled_map fetchTrend s Hne Hok)
    as (Hmap & Hlog & _).
  split; [exact Hlog|]. split; [intros name; apply Hmap|].
  rewrite getAllIndustryTrends_joined by done. simpl.
  intros name t Ht.
  apply collectTrends_entries in Ht as [Hempty|?]; [|done].
  by rewrite lookup_empty in Hempty.
Qed.

Lemma trends_map_rebuilt_witness :
  let r := getAllIndustryTrends Examples.oneHttpError Examples.twoIndustries in
  snd r = [ReqIndustryTrend "电子"; ReqIndustryTrend "银行"] /\
  is_Some (allIndustryTrends (fst r) !! "银行") /\
  allIndustryTrends (fst r) !! "电子" = None.
Proof.
  destruct (trends_map_rebuilt Examples.oneHttpError Examples.twoIndustries)
    as (Hlog & Hmap & _).
  - discriminate.
  - intros [|[|i]] m Hi; [discriminate..|simpl in Hi; lia].
  - split; [exact Hlog|]. split.
    + apply Hmap. exists 1%nat, Examples.bank.
      split; [reflexivity|]. split; [reflexivity|].
      by exists Examples.bankTrend, Examples.bankStocks.
    + apply eq_None_not_Some. intros Hsome.
      apply Hmap in Hsome as (i & item & Hi & Hn & (t & st & Hr & _)).
      destruct i as [|[|i]]; simpl in Hi; try discriminate.
      injection Hi as <-. discriminate Hn.
Defined.

(** X10.  When the body of any one of the trend requests fails to parse,
    [getAllIndustryTrends] leaves [allIndustryTrends] as it was, puts a
    message in [error], ends with [loading] false and schedules no chart
    update. *)
Theorem unparsed_trend_body_discards_join {num} `{JSNumber num}
    (rand : nat -> num) (fetchTrend : nat -> response (IndustryTrend num))
    (s : State num) (i : nat) (m : string) :
  (i < length (industryAnalysis s))%nat ->
  fetchTrend i = JsonRejected m ->
  let s' := fst (getAllIndustryTrends fetchTrend s) in
  allIndustryTrends s' = allIndustryTrends s /\
  (exists m', error s' = Some ("获取行业趋势数据失败: " ++ m')) /\
  loading s' = false /\
  industryChart s' = industryChart s /\
  fst (getAllIndustryTrends_settled rand fetchTrend s) = s'.
Proof.
  intros Hi Hrej s'. subst s'.
  unfold getAllIndustryTrends_settled.
  rewrite (trendsJoined_rejected fetchTrend s i m Hi Hrej).
  unfold getAllIndustryTrends. simpl.
  destruct (0 <? length (industryAnalysis s))%nat eqn:El;
    [|apply Nat.ltb_ge in El; lia].
  destruct (promise_all_rejected (map (industry (num:=num)) (industryAnalysis s))
              fetchTrend i m) as [m' ->]; [by rewrite length_map|exact Hrej|].
  simpl. repeat split. by exists m'.
Qed.

Lemma unparsed_trend_body_discards_join_witness :
  let s' := fst (getAllIndustryTrends Examples.oneBadBody Examples.twoIndustries) in
  allIndustryTrends s' = allIndustryTrends Examples.twoIndustries /\
  loading s' = false.
Proof.
  destruct (unparsed_trend_body_discards_join Examples.noRandom Examples.oneBadBody
              Examples.twoIndustries 0 "Unexpected token < in JSON at position 0")
    as (Hmap & _ & Hloading & _).
  - simpl. lia.
  - reflexivity.
  - split; [exact Hmap|exact Hloading].
Defined.

(** X11.  [getIndustryAnalysis] asks for the current page with the current
    page size and then, whatever the answer, for the trend of each row it
    stored, in row order: none after a failure or an empty page.
    [handleIndustrySizeChange] asks for page 1 with the new size and
    [handleIndustryPageChange] for the new page with the size kept. *)
Theorem analysis_requests {num} `{JSNumber num} :
  (forall (resp : response (AnalysisPage num)) (s : State num),
     let r := getIndustryAnalysis resp s in
     snd r = ReqIndustryAnalysis (industryCurrentPage s) (industryPageSize s)
             :: map (fun item => ReqIndustryTrend (industry item))
                    (industryAnalysis (fst r))) /\
  (forall size (resp : response (AnalysisPage num)) (s : State num),
     let r := handleIndustrySizeChange size resp s in
     industryCurrentPage (fst r) = 1%Z /\ industryPageSize (fst r) = size /\
     head (snd r) = Some (ReqIndustryAnalysis 1 size)) /\
  (forall page (resp : response (AnalysisPage num)) (s : State num),
     let r := handleIndustryPageChange page resp s in
     industryCurrentPage (fst r) = page /\
     industryPageSize (fst r) = industryPageSize s /\
     head (snd r) = Some (ReqIndustryAnalysis page (industryPageSize s))).
Proof.
  assert (forall (resp : response (AnalysisPage num)) (s : State num),
            snd (getIndustryAnalysis resp s)
            = ReqIndustryAnalysis (industryCurrentPage s) (industryPageSize s)
              :: map (fun item => ReqIndustryTrend (industry item))
                     (industryAnalysis (fst (getIndustryAnalysis resp s)))) as Hlog.
  { intros resp s. unfold getIndustryAnalysis.
    destruct resp as [| | |data]; try reflexivity. simpl.
    destruct (default [] (page_data data)) as [|x xs] eqn:Erows; reflexivity. }
  assert (forall (resp : response (AnalysisPage num)) (s : State num),
            industryCurrentPage (fst (getIndustryAnalysis resp s))
            = industryCurrentPage s /\
            industryPageSize (fst (getIndustryAnalysis resp s))
            = industryPageSize s) as Hpage.
  { intros resp s. unfold getIndustryAnalysis.
    destruct resp as [| | |data]; try (split; reflexivity). simpl.
    destruct (0 <? length (default [] (page_data data)))%nat; split; reflexivity. }
  split; [exact Hlog|]. split.
  - intros size resp s r. subst r. unfold handleIndustrySizeChange.
    rewrite Hlog. destruct (Hpage resp (set_industryCurrentPage 1
                                          (set_industryPageSize size s))) as [-> ->].
    repeat split.
  - intros page resp s r. subst r. unfold handleIndustryPageChange.
    rewrite Hlog. destruct (Hpage resp (set_industryCurrentPage page s)) as [-> ->].
    repeat split.
Qed.

Lemma analysis_requests_witness :
  snd (handleIndustrySizeChange 50
         (JsonBody {| page_data := Some [Examples.bank; Examples.pharma];
                      page_total := Some 31%Q |})
         Examples.mountedState)
  = [ReqIndustryAnalysis 1 50; ReqIndustryTrend "银行"; ReqIndustryTrend "医药生物"].
Proof.
  destruct (@analysis_requests Q QNum) as (Hlog & _).
  unfold handleIndustrySizeChange. rewrite Hlog. by_computation.
Defined.

Lemma updateIndustryChart_industryChartRef {num} `{JSNumber num}
    (rand : nat -> num) (s : State num) :
  industryChartRef (updateIndustryChart rand s) = industryChartRef s.
Proof.
  rewrite updateIndustryChart_cases. by destruct (canDrawLineChart s).
Qed.

(** X12.  A page load from end to end.  When the analysis endpoint answers
    with rows, the chart container is in the document and no trend body
    fails to parse, then once everything has settled the rows are stored,
    [loading] is false, [error] is null, [allIndustryTrends] has an entry
    exactly for the names of the rows whose trend arrived with
    [stock_trends], and the line chart shows the option computed from that
    final state. *)
Theorem page_load_settled {num} `{JSNumber num}
    (rand1 rand2 : nat -> num) (rows : list (IndustrySummary num))
    (total : option num) (fetchTrend : nat -> response (IndustryTrend num))
    (s : State num) :
  rows <> [] ->
  industryChartRef s = true ->
  (forall i m, (i < length rows)%nat -> fetchTrend i <> JsonRejected m) ->
  let s' := fst (getIndustryAnalysis_settled rand1 rand2
                   (JsonBody {| page_data := Some rows; page_total := total |})
                   fetchTrend s) in
  industryAnalysis s' = rows /\
  loading s' = false /\
  error s' = None /\
  (forall name,
     is_Some (allIndustryTrends s' !! name) <->
     exists i item, rows !! i = Some item /\ industry item = name /\
                    trendDelivered (fetchTrend i)) /\
  shownLineChart s' = Some (lineChartOption rand2 s').
Proof.
  intros Hne Href Hok s'. subst s'.
  assert ((0 <? length rows)%nat = true) as Hlen
    by (destruct rows; [done|reflexivity]).
  unfold getIndustryAnalysis_settled, getIndustryAnalysis. simpl. rewrite Hlen.
  rewrite updateIndustryChart_industryAnalysis. simpl. rewrite Hlen.
  match goal with
  | |- context [getAllIndustryTrends_settled rand2 fetchTrend ?st] => set (s2 := st)
  end.
  assert (industryAnalysis s2 = rows) as Hrows
    by (subst s2; by rewrite updateIndustryChart_industryAnalysis).
  assert (industryChartRef s2 = true) as Href2
    by (subst s2; by rewrite updateIndustryChart_industryChartRef).
  unfold getAllIndustryTrends_settled.
  rewrite getAllIndustryTrends_joined by (rewrite Hrows; done).
  rewrite trendsJoined_settled by (rewrite Hrows; done).
  rewrite updateIndustryChart_cases.
  match goal with
  | |- context [canDrawLineChart ?st] => set (s3 := st)
  end.
  assert (canDrawLineChart s3 = true) as Hdraw.
  { unfold canDrawLineChart. subst s3. simpl. rewrite Hrows, Href2.
    destruct rows; [done|]. simpl. apply orb_true_r. }
  rewrite Hdraw. simpl.
  split; [exact Hrows|]. split; [reflexivity|]. split; [reflexivity|]. split.
  - intros name.
    destruct (collectTrends_lookup (industryAnalysis s2) fetchTrend ∅ name)
      as [Hiff _].
    rewrite Hiff, lookup_empty, Hrows. split.
    + intros [[? ?]|?]; [discriminate|done].
    + intros ?; by right.
  - rewrite lineChartOption_set_industryChart. reflexivity.
Qed.

Lemma page_load_settled_witness :
  let s' := fst (getIndustryAnalysis_settled Examples.noRandom Examples.noRandom
                   (JsonBody {| page_data := Some [Examples.electronics; Examples.bank];
                                page_total := Some 2%Q |})
                   Examples.oneHttpError Examples.mountedState) in
  industryAnalysis s' = [Examples.electronics; Examples.bank] /\
  loading s' = false /\
  shownLineChart s' = Some (lineChartOption Examples.noRandom s').
Proof.
  destruct (page_load_settled Examples.noRandom Examples.noRandom
              [Examples.electronics; Examples.bank] (Some 2%Q)
              Examples.oneHttpError Examples.mountedState)
    as (Hrows & Hloading & _ & _ & Hchart).
  - discriminate.
  - reflexivity.
  - intros [|[|i]] m Hi; [discriminate..|simpl in Hi; lia].
  - split; [exact Hrows|]. split; [exact Hloading|exact Hchart].
Defined.

(** ** The treemap pipeline as a whole *)

Section TreemapFacts.

Context {num : Type} {JN : JSNumber num}.




Lemma set_visual_idempotent (v : HotValue num) :
  set_visual (set_visual v) = set_visual v.
Proof. reflexivity. Qed.

Lemma updateHotmapChart_cases (resp : response (HierarchyBody num)) (s : State num) :
  updateHotmapChart resp s
  = if marketHotmapRef s
    then (set_hotmapLoading false
            (set_marketHotmapChart
               (Some {| chart_option := Some (convertData (finalDataOf resp)) |}) s),
          [ReqStockHierarchy])
    else (set_hotmapLoading false s, []).
Proof.
  unfold updateHotmapChart, finalDataOf.
  destruct (marketHotmapChart s) as [chart|] eqn:Ec;
    destruct (marketHotmapRef s) eqn:Er; simpl; try reflexivity.
  - rewrite Ec, Er. reflexivity.
  - rewrite Er. reflexivity.
Qed.

End TreemapFacts.



(** X14.  In the conversion the fallback [value?.[0]] never contributes to
    index 0 of a [value] array: when the API sends [value] as an array, index
    0 of the node is that whole array, not its first element, while indices
    1 and 2 fall back to its elements 1 and 2. *)
Theorem value_array_kept_whole {num} `{JSNumber num} :
  (forall ind : ApiIndustry num,
     value_0 (node_value (convertIndustry ind))
     = jsv_or (api_value ind)
         (VNum (num_or (api_market_cap ind) (num_or (api_marketCap ind) (nlit 0))))) /\
  (forall stock : ApiStock num,
     value_0 (stock_node_value (convertStock stock))
     = jsv_or (api_stock_value stock)
         (VNum (num_or (api_stock_market_cap stock)
                  (num_or (api_stock_marketCap stock) (nlit 0))))) /\
  (forall (ind : ApiIndustry num) l,
     api_value ind = Some (VArr l) ->
     value_0 (node_value (convertIndustry ind)) = VArr l /\
     value_1 (node_value (convertIndustry ind))
     = num_or (api_stock_count ind)
         (num_or (api_total_stock_count ind)
            (num_or (api_stockCount ind) (num_or (l !! 1%nat) (nlit 0)))) /\
     value_2 (node_value (convertIndustry ind))
     = num_or (api_increase ind)
         (num_or (api_change ind) (num_or (l !! 2%nat) (nlit 0)))).
Proof.
  split; [|split].
  - intros ind. simpl. unfold jsv_or, opt_index.
    destruct (api_value ind) as [[x|l]|]; reflexivity.
  - intros stock. simpl. unfold jsv_or, opt_index.
    destruct (api_stock_value stock) as [[x|l]|]; reflexivity.
  - intros ind l Hv. simpl. rewrite Hv. simpl. repeat split.
Qed.

Lemma value_array_kept_whole_witness :
  value_0 (node_value (convertIndustry MoreExamples.apiBank))
  = VArr [90000; 2; 0.4]%Q /\
  value_1 (node_value (convertIndustry MoreExamples.apiBank)) = 2%Q.
Proof.
  destruct (@value_array_kept_whole Q QNum) as (_ & _ & Harray).
  destruct (Harray MoreExamples.apiBank [90000; 2; 0.4]%Q eq_refl) as (H0 & H1 & _).
  split; [exact H0|]. rewrite H1. reflexivity.
Defined.

(** X15.  When the hierarchy endpoint sends at least one industry (in a
    [data] array, as an array, or as a single object) and the container is
    in the document, the treemap shows the converted API data, one node per
    industry under the names of the conversion, and not the static data. *)
Theorem hotmap_shows_api_data {num} `{JSNumber num}
    (resp : response (HierarchyBody num)) (s : State num) :
  marketHotmapRef s = true ->
  fst (getIndustryStockHierarchy resp) <> [] ->
  let api := fst (getIndustryStockHierarchy resp) in
  exists data,
    shownHotmap (fst (updateHotmapChart resp s)) = Some data /\
    data = convertData (convertApiDataToChartFormat api) /\
    length data = length api /\
    map (node_name (num:=num)) data
    = map (fun ind => str_or (api_name ind) (str_or (api_industry ind) "未知行业")) api.
Proof.
  intros Href Hne api. subst api.
  rewrite updateHotmapChart_cases, Href.
  eexists. split; [reflexivity|].
  assert (finalDataOf resp
          = convertApiDataToChartFormat (fst (getIndustryStockHierarchy resp))) as ->.
  { unfold finalDataOf, convertApiDataToChartFormat. rewrite length_map.
    destruct (fst (getIndustryStockHierarchy resp)); [done|reflexivity]. }
  split; [reflexivity|]. unfold convertData, convertApiDataToChartFormat.
  split; [by rewrite !length_map|].
  rewrite !map_map. reflexivity.
Qed.

Lemma hotmap_shows_api_data_witness :
  exists data,
    shownHotmap (fst (updateHotmapChart (JsonBody (HObject MoreExamples.apiBank))
                        Examples.mountedState)) = Some data /\
    map (node_name (num:=Q)) data = ["银行"].
Proof.
  destruct (hotmap_shows_api_data (JsonBody (HObject MoreExamples.apiBank))
              Examples.mountedState) as (data & Hshown & _ & _ & Hnames);
    [reflexivity|discriminate|].
  exists data. split; [exact Hshown|]. rewrite Hnames. reflexivity.
Defined.

(** X16.  [updateHotmapChart] changes nothing but the treemap and
    [hotmapLoading], which it always leaves false.  It issues the hierarchy
    request exactly when the container is in the document; without the
    container it issues none and leaves the chart as it was, and
    [initHotmapChart] then does nothing at all. *)
Theorem updateHotmapChart_frame {num} `{JSNumber num}
    (resp : response (HierarchyBody num)) (s : State num) :
  let r := updateHotmapChart resp s in
  sameButHotmap s (fst r) /\
  hotmapLoading (fst r) = false /\
  (marketHotmapRef s = true -> snd r = [ReqStockHierarchy]) /\
  (marketHotmapRef s = false ->
   snd r = [] /\ marketHotmapChart (fst r) = marketHotmapChart s /\
   initHotmapChart resp s = (s, [])).
Proof.
  intros r. subst r. rewrite updateHotmapChart_cases. unfold sameButHotmap.
  destruct (marketHotmapRef s) eqn:Er; simpl.
  - split; [reflexivity|]. split; [reflexivity|]. split; [reflexivity|].
    discriminate.
  - split; [by destruct s|]. split; [reflexivity|]. split; [discriminate|].
    intros _. unfold initHotmapChart. rewrite Er. split; [|split]; reflexivity.
Qed.

Lemma updateHotmapChart_frame_witness :
  updateHotmapChart (HttpError 500) MoreExamples.unmountedState
  = (set_hotmapLoading false MoreExamples.unmountedState, []).
Proof.
  destruct (updateHotmapChart_frame (HttpError 500) MoreExamples.unmountedState)
    as (Hsame & Hloading & _ & Hnone).
  destruct (Hnone eq_refl) as (Hlog & Hchart & _).
  apply injective_projections; [|exact Hlog].
  rewrite Hsame, Hloading, Hchart. reflexivity.
Defined.

(** X17.  [convertData] only fills index 3: it keeps the number and the
    order of the nodes and of their stocks, their names, their stock counts
    and indices 0 to 2 of every [value]; applying it twice is the same as
    applying it once. *)
Theorem convertData_keeps_nodes {num} `{JSNumber num} (l : list (HotmapNode num)) :
  convertData (convertData l) = convertData l /\
  map (node_name (num:=num)) (convertData l) = map (node_name (num:=num)) l /\
  map (node_stock_count (num:=num)) (convertData l)
  = map (node_stock_count (num:=num)) l /\
  Forall2 (fun node node' =>
             sameButVisual (node_value node) (node_value node') /\
             Forall2 (fun child child' =>
                        stock_node_name child' = stock_node_name child /\
                        sameButVisual (stock_node_value child)
                                      (stock_node_value child'))
                     (node_children node) (node_children node'))
          l (convertData l).
Proof.
  unfold convertData. split; [|split; [|split]].
  - rewrite map_map. apply map_ext. intros node. simpl. f_equal.
    rewrite map_map. apply map_ext. intros child. reflexivity.
  - rewrite map_map. reflexivity.
  - rewrite map_map. reflexivity.
  - induction l as [|node rest IH]; simpl; constructor; [|exact IH].
    split; [by repeat split|]. simpl.
    induction (node_children node) as [|child cs IHc]; simpl; constructor;
      [|exact IHc].
    split; [reflexivity|by repeat split].
Qed.
